(** * cdmenu: the settings page script (src/main.js)

    A shallow embedding of the page script of the cdmenu tray application and
    the properties of it that the specification states.

    The script keeps a handful of module-level variables, reads and writes DOM
    elements, and talks to the Rust backend through [invoke].  Every handler is
    embedded as a computation in a state-and-exception monad over a [World]
    that holds the variables, the DOM properties the script touches, the
    console, and the list of backend commands invoked so far.  An [await] is a
    sequencing point: a handler is run to completion, and the settlement of
    each awaited promise is read from a [Backend] value. *)

From Stdlib Require Import ZArith NArith String Ascii List Bool Lia DecimalString.
Import ListNotations.
Open Scope string_scope.

(* ================================================================== *)
(** ** JavaScript values and built-ins used by the script *)
(* ================================================================== *)

Module Js.

(** How an awaited promise settles. The error is kept as the text that a
    template literal would print for it. *)
Inductive Settled (A : Type) : Type :=
| Resolved (a : A)
| Rejected (e : string).
Arguments Resolved {A} a.
Arguments Rejected {A} e.

(** The numbers [parseInt] can return: NaN, or an integer. An [Int z] stands
    for the double nearest to [z]; rounding to double is monotone and 30 is a
    double, so comparing with 30 gives the same answer on [z]. *)
Inductive Number : Type :=
| NaN
| Int (z : Z).

(** [x < k] for a number [x] and an integer [k]: false when [x] is NaN. *)
Definition lt (x : Number) (k : Z) : bool :=
  match x with
  | NaN => false
  | Int z => (z <? k)%Z
  end.

(** Truthiness of a string: only the empty string is falsy. *)
Definition truthy (s : string) : bool :=
  match s with
  | EmptyString => false
  | String _ _ => true
  end.

(** Truthiness of a value that is null or a string. *)
Definition truthy_opt (v : option string) : bool :=
  match v with
  | None => false
  | Some s => truthy s
  end.

(** [a || b] where [a] is null or a string and [b] a string. *)
Definition or_else (a : option string) (b : string) : string :=
  match a with
  | Some s => if truthy s then s else b
  | None => b
  end.

(** [a || null] where [a] is undefined or a string. *)
Definition or_null (a : option string) : option string :=
  match a with
  | Some s => if truthy s then Some s else None
  | None => None
  end.

(** White space skipped by [parseInt] (the ASCII part of StrWhiteSpaceChar:
    TAB, LF, VT, FF, CR and SP). *)
Definition is_white (c : ascii) : bool :=
  let n := nat_of_ascii c in
  (n =? 32)%nat || ((9 <=? n)%nat && (n <=? 13)%nat).

Fixpoint trim_start (s : string) : string :=
  match s with
  | String c rest => if is_white c then trim_start rest else s
  | EmptyString => s
  end.

Definition digit_of (c : ascii) : option Z :=
  let n := Z.of_nat (nat_of_ascii c) in
  if ((48 <=? n) && (n <=? 57))%Z then Some (n - 48)%Z else None.

(** The value of the longest prefix of decimal digits, [acc] being the value
    read so far ([None]: no digit yet). *)
Fixpoint digits (acc : option Z) (s : string) : option Z :=
  match s with
  | String c rest =>
      match digit_of c with
      | Some d =>
          digits (Some (10 * match acc with Some a => a | None => 0 end + d)%Z)
                 rest
      | None => acc
      end
  | EmptyString => acc
  end.

(** [parseInt(s, 10)]: leading white space, an optional sign, then the
    longest run of decimal digits; NaN when there is no digit. *)
Definition parseInt (s : string) : Number :=
  let s1 := trim_start s in
  let '(sign, s2) :=
    match s1 with
    | String "-"%char rest => ((-1)%Z, rest)
    | String "+"%char rest => (1%Z, rest)
    | _ => (1%Z, s1)
    end in
  match digits None s2 with
  | None => NaN
  | Some m => Int (sign * m)
  end.

(** [`${n}`] for a non-negative integer count: its decimal digits (counts
    of pipelines are far below 2^53, where a double prints as the integer
    it is). *)
Definition show_count (n : N) : string :=
  NilEmpty.string_of_uint (N.to_uint n).

(** Array built-ins. [splice1 i l] is [l.splice(i, 1)] for an index
    [i >= 0]: past the end it removes nothing. [pop] on an empty array
    leaves it empty. [join] puts the separator between the elements. *)
Definition push {A} (x : A) (l : list A) : list A := l ++ [x].
Definition pop {A} (l : list A) : list A := removelast l.
Definition splice1 {A} (i : nat) (l : list A) : list A :=
  firstn i l ++ skipn (S i) l.
Definition some {A} (f : A -> bool) (l : list A) : bool := existsb f l.
Definition join (sep : string) (l : list string) : string :=
  String.concat sep l.

End Js.

Import Js.

(* ================================================================== *)
(** ** Text of the markup the script writes *)
(* ================================================================== *)

(** The double quote and the line feed, which the markup contains. *)
Definition dq : string := String (ascii_of_nat 34) "".
Definition nl : string := String (ascii_of_nat 10) "".

(** [class="c"] as it stands in a tag. *)
Definition class_ (c : string) : string := "class=" ++ dq ++ c ++ dq.

Fixpoint spaces (n : nat) : string :=
  match n with
  | O => ""
  | S k => " " ++ spaces k
  end.

(* ================================================================== *)
(** ** Data the script exchanges with the backend *)
(* ================================================================== *)

(** An entry of [workspaces]; [name] may be missing. *)
Record Workspace : Type := { slug : string; name : option string }.

(** An entry of [monitoredPipelines], as [addMonitoredPipeline] builds it. *)
Record Pipeline : Type := {
  workspace : string;
  project_key : string;
  project_name : option string;
  repo_slug : string;
  repo_name : string;
  branch : option string
}.

Module Status.

(** Modelled from the spec: the shape of the status snapshot, whose type is
    declared in the backend. The spec gives [isHealthy: bool],
    [totalMonitored: int], [inProgressCount: int], [failedPipelines: ordered
    list of (target, reason)] and [lastChecked: timestamp]; the script reads
    the fields below, the timestamp as the text it prints. *)
Record FailedPipeline : Type := {
  repo_name : option string;
  repo_slug : string;
  failure_reason : string
}.

Record AggregateStatus : Type := {
  is_healthy : bool;
  total_monitored : N;
  in_progress_count : N;
  failed_pipelines : list FailedPipeline;
  last_checked : string
}.

(** What [get_pipeline_statuses] resolves to, or a [status-updated] event
    carries: undefined, null, or a snapshot. *)
Inductive Payload : Type :=
| Undefined
| Null
| Snapshot (s : AggregateStatus).

Definition truthy (p : Payload) : bool :=
  match p with
  | Snapshot _ => true
  | _ => false
  end.

End Status.

(** The commands of the backend, with the arguments the script passes. *)
Inductive Call : Type :=
| get_credentials
| get_app_password
| get_workspaces (username appPassword : string)
| get_pipeline_statuses
| save_monitored_pipelines (pipelines : list Pipeline)
| set_polling_interval (seconds : Js.Number)
| trigger_refresh.

(** How the backend settles each command while one handler runs. *)
Record Backend : Type := {
  on_get_credentials : Settled (option string);
  on_get_app_password : Settled (option string);
  on_get_workspaces : string -> string -> Settled (list Workspace);
  on_get_pipeline_statuses : Settled Status.Payload;
  on_save_monitored_pipelines : list Pipeline -> Settled unit;
  on_set_polling_interval : Js.Number -> Settled unit;
  on_trigger_refresh : Settled unit
}.

(* ================================================================== *)
(** ** The page: DOM elements and the script's variables *)
(* ================================================================== *)

Record OptionEl : Type := { value : string; text : string }.

(** A drop-down: its options, the selected one ([None] is index -1). *)
Record Select : Type := {
  options : list OptionEl;
  selectedIndex : option nat;
  disabled : bool
}.

Definition selected (s : Select) : option OptionEl :=
  match selectedIndex s with
  | Some i => nth_error (options s) i
  | None => None
  end.

(** [s.value]: the value of the selected option, the empty string if none. *)
Definition select_value (s : Select) : string :=
  match selected s with
  | Some o => value o
  | None => ""
  end.

Fixpoint index_of (v : string) (l : list OptionEl) : option nat :=
  match l with
  | [] => None
  | o :: rest =>
      if String.eqb (value o) v then Some O
      else option_map S (index_of v rest)
  end.

(** [s.value = v]: selects the first option whose value is [v], none if there
    is no such option. *)
Definition set_select_value (v : string) (s : Select) : Select :=
  {| options := options s;
     selectedIndex := index_of v (options s);
     disabled := disabled s |}.

Record AuthStatus : Type := {
  textContent : string;
  className : string;
  display : string
}.

(** The [div.notification] element that [showNotification] appends. *)
Record Notification : Type := { n_className : string; n_textContent : string }.

Record World : Type := {
  (* module-level variables *)
  currentUsername : string;
  currentAppPassword : string;
  workspaces : list Workspace;
  monitoredPipelines : list Pipeline;
  (* DOM *)
  usernameInput_value : string;
  appPasswordInput_placeholder : string;
  authStatus : AuthStatus;
  workspaceSelect : Select;
  projectSelect : Select;
  repoSelect : Select;
  addPipelineBtn_disabled : bool;
  pipelineList : list Pipeline;  (* the list the [ul] was last rendered from *)
  pollingIntervalInput_value : string;
  statusDetails_innerHTML : string;
  statusIndicator_className : string;
  notification : option Notification;
  (* outside the page *)
  console : list string;         (* lines written by [console.error] *)
  calls : list Call;             (* commands invoked, oldest first *)
  stored_pipelines : list Pipeline
}.

Definition upd_currentUsername (f : _ -> _) (w : World) : World :=
  let 'Build_World x1 x2 x3 x4 x5 x6 x7 x8 x9 x10 x11 x12 x13 x14 x15 x16 x17 x18 x19 := w in
  Build_World (f x1) x2 x3 x4 x5 x6 x7 x8 x9 x10 x11 x12 x13 x14 x15 x16 x17 x18 x19.
Definition upd_currentAppPassword (f : _ -> _) (w : World) : World :=
  let 'Build_World x1 x2 x3 x4 x5 x6 x7 x8 x9 x10 x11 x12 x13 x14 x15 x16 x17 x18 x19 := w in
  Build_World x1 (f x2) x3 x4 x5 x6 x7 x8 x9 x10 x11 x12 x13 x14 x15 x16 x17 x18 x19.
Definition upd_workspaces (f : _ -> _) (w : World) : World :=
  let 'Build_World x1 x2 x3 x4 x5 x6 x7 x8 x9 x10 x11 x12 x13 x14 x15 x16 x17 x18 x19 := w in
  Build_World x1 x2 (f x3) x4 x5 x6 x7 x8 x9 x10 x11 x12 x13 x14 x15 x16 x17 x18 x19.
Definition upd_monitoredPipelines (f : _ -> _) (w : World) : World :=
  let 'Build_World x1 x2 x3 x4 x5 x6 x7 x8 x9 x10 x11 x12 x13 x14 x15 x16 x17 x18 x19 := w in
  Build_World x1 x2 x3 (f x4) x5 x6 x7 x8 x9 x10 x11 x12 x13 x14 x15 x16 x17 x18 x19.
Definition upd_usernameInput_value (f : _ -> _) (w : World) : World :=
  let 'Build_World x1 x2 x3 x4 x5 x6 x7 x8 x9 x10 x11 x12 x13 x14 x15 x16 x17 x18 x19 := w in
  Build_World x1 x2 x3 x4 (f x5) x6 x7 x8 x9 x10 x11 x12 x13 x14 x15 x16 x17 x18 x19.
Definition upd_appPasswordInput_placeholder (f : _ -> _) (w : World) : World :=
  let 'Build_World x1 x2 x3 x4 x5 x6 x7 x8 x9 x10 x11 x12 x13 x14 x15 x16 x17 x18 x19 := w in
  Build_World x1 x2 x3 x4 x5 (f x6) x7 x8 x9 x10 x11 x12 x13 x14 x15 x16 x17 x18 x19.
Definition upd_authStatus (f : _ -> _) (w : World) : World :=
  let 'Build_World x1 x2 x3 x4 x5 x6 x7 x8 x9 x10 x11 x12 x13 x14 x15 x16 x17 x18 x19 := w in
  Build_World x1 x2 x3 x4 x5 x6 (f x7) x8 x9 x10 x11 x12 x13 x14 x15 x16 x17 x18 x19.
Definition upd_workspaceSelect (f : _ -> _) (w : World) : World :=
  let 'Build_World x1 x2 x3 x4 x5 x6 x7 x8 x9 x10 x11 x12 x13 x14 x15 x16 x17 x18 x19 := w in
  Build_World x1 x2 x3 x4 x5 x6 x7 (f x8) x9 x10 x11 x12 x13 x14 x15 x16 x17 x18 x19.
Definition upd_projectSelect (f : _ -> _) (w : World) : World :=
  let 'Build_World x1 x2 x3 x4 x5 x6 x7 x8 x9 x10 x11 x12 x13 x14 x15 x16 x17 x18 x19 := w in
  Build_World x1 x2 x3 x4 x5 x6 x7 x8 (f x9) x10 x11 x12 x13 x14 x15 x16 x17 x18 x19.
Definition upd_repoSelect (f : _ -> _) (w : World) : World :=
  let 'Build_World x1 x2 x3 x4 x5 x6 x7 x8 x9 x10 x11 x12 x13 x14 x15 x16 x17 x18 x19 := w in
  Build_World x1 x2 x3 x4 x5 x6 x7 x8 x9 (f x10) x11 x12 x13 x14 x15 x16 x17 x18 x19.
Definition upd_addPipelineBtn_disabled (f : _ -> _) (w : World) : World :=
  let 'Build_World x1 x2 x3 x4 x5 x6 x7 x8 x9 x10 x11 x12 x13 x14 x15 x16 x17 x18 x19 := w in
  Build_World x1 x2 x3 x4 x5 x6 x7 x8 x9 x10 (f x11) x12 x13 x14 x15 x16 x17 x18 x19.
Definition upd_pipelineList (f : _ -> _) (w : World) : World :=
  let 'Build_World x1 x2 x3 x4 x5 x6 x7 x8 x9 x10 x11 x12 x13 x14 x15 x16 x17 x18 x19 := w in
  Build_World x1 x2 x3 x4 x5 x6 x7 x8 x9 x10 x11 (f x12) x13 x14 x15 x16 x17 x18 x19.
Definition upd_pollingIntervalInput_value (f : _ -> _) (w : World) : World :=
  let 'Build_World x1 x2 x3 x4 x5 x6 x7 x8 x9 x10 x11 x12 x13 x14 x15 x16 x17 x18 x19 := w in
  Build_World x1 x2 x3 x4 x5 x6 x7 x8 x9 x10 x11 x12 (f x13) x14 x15 x16 x17 x18 x19.
Definition upd_statusDetails_innerHTML (f : _ -> _) (w : World) : World :=
  let 'Build_World x1 x2 x3 x4 x5 x6 x7 x8 x9 x10 x11 x12 x13 x14 x15 x16 x17 x18 x19 := w in
  Build_World x1 x2 x3 x4 x5 x6 x7 x8 x9 x10 x11 x12 x13 (f x14) x15 x16 x17 x18 x19.
Definition upd_statusIndicator_className (f : _ -> _) (w : World) : World :=
  let 'Build_World x1 x2 x3 x4 x5 x6 x7 x8 x9 x10 x11 x12 x13 x14 x15 x16 x17 x18 x19 := w in
  Build_World x1 x2 x3 x4 x5 x6 x7 x8 x9 x10 x11 x12 x13 x14 (f x15) x16 x17 x18 x19.
Definition upd_notification (f : _ -> _) (w : World) : World :=
  let 'Build_World x1 x2 x3 x4 x5 x6 x7 x8 x9 x10 x11 x12 x13 x14 x15 x16 x17 x18 x19 := w in
  Build_World x1 x2 x3 x4 x5 x6 x7 x8 x9 x10 x11 x12 x13 x14 x15 (f x16) x17 x18 x19.
Definition upd_console (f : _ -> _) (w : World) : World :=
  let 'Build_World x1 x2 x3 x4 x5 x6 x7 x8 x9 x10 x11 x12 x13 x14 x15 x16 x17 x18 x19 := w in
  Build_World x1 x2 x3 x4 x5 x6 x7 x8 x9 x10 x11 x12 x13 x14 x15 x16 (f x17) x18 x19.
Definition upd_calls (f : _ -> _) (w : World) : World :=
  let 'Build_World x1 x2 x3 x4 x5 x6 x7 x8 x9 x10 x11 x12 x13 x14 x15 x16 x17 x18 x19 := w in
  Build_World x1 x2 x3 x4 x5 x6 x7 x8 x9 x10 x11 x12 x13 x14 x15 x16 x17 (f x18) x19.
Definition upd_stored_pipelines (f : _ -> _) (w : World) : World :=
  let 'Build_World x1 x2 x3 x4 x5 x6 x7 x8 x9 x10 x11 x12 x13 x14 x15 x16 x17 x18 x19 := w in
  Build_World x1 x2 x3 x4 x5 x6 x7 x8 x9 x10 x11 x12 x13 x14 x15 x16 x17 x18 (f x19).

(* ================================================================== *)
(** ** The monad of handlers: state and exceptions *)
(* ================================================================== *)

(** A handler either completes with a value or throws; the state reached is
    kept in both cases, as the effects before a throw are not undone. *)
Inductive Outcome (A : Type) : Type :=
| Value (a : A)
| Throw (e : string).
Arguments Value {A} a.
Arguments Throw {A} e.

Definition M (A : Type) : Type := World -> Outcome A * World.

Definition ret {A} (a : A) : M A := fun w => (Value a, w).

Definition bind {A B} (c : M A) (k : A -> M B) : M B :=
  fun w =>
    match c w with
    | (Value a, w1) => k a w1
    | (Throw e, w1) => (Throw e, w1)
    end.

Notation "x <- c ;; k" := (bind c (fun x => k))
  (at level 61, c at next level, right associativity).
Notation "c ;; k" := (bind c (fun _ => k))
  (at level 61, right associativity).

Definition throw {A} (e : string) : M A := fun w => (Throw e, w).

(** [try { body } catch (e) { handler }]. *)
Definition try_catch {A} (body : M A) (handler : string -> M A) : M A :=
  fun w =>
    match body w with
    | (Value a, w1) => (Value a, w1)
    | (Throw e, w1) => handler e w1
    end.

Definition read : M World := fun w => (Value w, w).
Definition modify (f : World -> World) : M unit := fun w => (Value tt, f w).

(** The world a handler leaves behind. *)
Definition run {A} (c : M A) (w : World) : World := snd (c w).

(** [await invoke(c, ...)]: the command is recorded, and the promise settles
    as the backend has it. *)
Definition invoke {A} (c : Call) (answer : Settled A) : M A :=
  fun w =>
    (match answer with
     | Resolved a => Value a
     | Rejected e => Throw e
     end,
     upd_calls (fun l => app l [c]) w).

(** [console.error(label, e)]. *)
Definition console_error (label e : string) : M unit :=
  modify (upd_console (fun l => app l [label ++ " " ++ e])).

(** Sixteen bullets (U+2022 in UTF-8), the placeholder of a saved password. *)
Definition bullet : string :=
  String (ascii_of_nat 226) (String (ascii_of_nat 128) (String (ascii_of_nat 162) "")).
Definition bullets : string :=
  String.concat "" (repeat bullet 16).

(** Reading a property of the status: a TypeError on null and undefined. *)
Definition field {A} (f : Status.AggregateStatus -> A) (status : Status.Payload) : M A :=
  match status with
  | Status.Snapshot s => ret (f s)
  | Status.Null => throw "TypeError: Cannot read properties of null"
  | Status.Undefined => throw "TypeError: Cannot read properties of undefined"
  end.

(* ------------------------------------------------------------------ *)
(** *** Handlers that do not call the backend *)

(** showAuthStatus (main.js 440-444). *)
Definition showAuthStatus (message type : string) : M unit :=
  modify (upd_authStatus (fun _ =>
    {| textContent := message;
       className := "status-message " ++ type;
       display := "block" |})).

(** showNotification (main.js 446-456): the notification shown is replaced.
    The timer that removes it three seconds later is not modelled. *)
Definition showNotification (message type : string) : M unit :=
  modify (upd_notification (fun _ =>
    Some {| n_className := "notification " ++ type;
            n_textContent := message |})).

(** populateWorkspaceSelect (main.js 258-267). *)
Definition populateWorkspaceSelect : M unit :=
  w <- read ;;
  modify (upd_workspaceSelect (fun _ =>
    {| options :=
         {| value := ""; text := "Select Workspace" |}
         :: map (fun ws => {| value := slug ws; text := or_else (name ws) (slug ws) |})
                (workspaces w);
       selectedIndex := Some O;
       disabled := false |})).

(** renderPipelineList (main.js 336-376). The markup of the list is not
    modelled, only which list it was rendered from. *)
Definition renderPipelineList : M unit :=
  w <- read ;;
  modify (upd_pipelineList (fun _ => monitoredPipelines w)).

(** One entry of the failed list (main.js 430). *)
Definition failed_item (p : Status.FailedPipeline) : string :=
  "<li>" ++ or_else (Status.repo_name p) (Status.repo_slug p)
         ++ " - " ++ Status.failure_reason p ++ "</li>".

(** updateStatusDisplay (main.js 412-438). *)
Definition updateStatusDisplay (status : Status.Payload) : M unit :=
  if negb (Status.truthy status) then
    modify (upd_statusDetails_innerHTML (fun _ => "<p>No status available</p>")) ;;
    modify (upd_statusIndicator_className (fun _ => "status-gray"))
  else
    healthy <- field Status.is_healthy status ;;
    modify (upd_statusIndicator_className (fun _ =>
      if healthy then "status-green" else "status-red")) ;;
    healthy <- field Status.is_healthy status ;;
    if healthy then
      total <- field Status.total_monitored status ;;
      let html := "<p " ++ class_ "healthy" ++ ">All " ++ show_count total
                       ++ " pipeline(s) healthy</p>" in
      running <- field Status.in_progress_count status ;;
      let html :=
        if (0 <? running)%N then
          html ++ "<p " ++ class_ "in-progress" ++ ">" ++ show_count running
               ++ " in progress</p>"
        else html in
      checked <- field Status.last_checked status ;;
      let html := html ++ "<p " ++ class_ "last-checked" ++ ">Last checked: "
                       ++ checked ++ "</p>" in
      modify (upd_statusDetails_innerHTML (fun _ => html))
    else
      failed <- field Status.failed_pipelines status ;;
      let failedList := join "" (map failed_item failed) in
      checked <- field Status.last_checked status ;;
      modify (upd_statusDetails_innerHTML (fun _ =>
        nl ++ spaces 12 ++ "<p " ++ class_ "failed" ++ ">"
           ++ show_count (N.of_nat (length failed)) ++ " pipeline(s) failed</p>"
           ++ nl ++ spaces 12 ++ "<ul " ++ class_ "failed-list" ++ ">"
           ++ failedList ++ "</ul>"
           ++ nl ++ spaces 12 ++ "<p " ++ class_ "last-checked" ++ ">Last checked: "
           ++ checked ++ "</p>"
           ++ nl ++ spaces 8)).

(** The listener of [status-updated] events (main.js 405-410). *)
Definition onStatusUpdated (payload : Status.Payload) : M unit :=
  updateStatusDisplay payload.

(* ------------------------------------------------------------------ *)
(** *** Handlers that call the backend *)

Section Handlers.

Variable backend : Backend.

(** Modelled from the spec: the store behind [save_monitored_pipelines], a
    command of the backend. A save that resolves leaves the list sent in the
    store; a save that is rejected leaves the store as it was. *)
Definition invoke_save_monitored_pipelines (pipelines : list Pipeline) : M unit :=
  invoke (save_monitored_pipelines pipelines)
         (on_save_monitored_pipelines backend pipelines) ;;
  modify (upd_stored_pipelines (fun _ => pipelines)).

(** loadWorkspaces (main.js 183-196). *)
Definition loadWorkspaces : M unit :=
  w <- read ;;
  if negb (truthy (currentUsername w)) || negb (truthy (currentAppPassword w))
  then ret tt
  else
    try_catch
      (ws <- invoke (get_workspaces (currentUsername w) (currentAppPassword w))
                    (on_get_workspaces backend (currentUsername w)
                                       (currentAppPassword w)) ;;
       modify (upd_workspaces (fun _ => ws)) ;;
       populateWorkspaceSelect)
      (fun e =>
         console_error "Failed to load workspaces:" e ;;
         showAuthStatus ("Failed to load workspaces: " ++ e) "error").

(** [if (v) { k v }] for a value [v] that is null or a string. *)
Definition when_truthy (v : option string) (k : string -> M unit) : M unit :=
  match v with
  | Some s => if truthy s then k s else ret tt
  | None => ret tt
  end.

(** loadSavedCredentials (main.js 43-61). *)
Definition loadSavedCredentials : M unit :=
  try_catch
    (username <- invoke get_credentials (on_get_credentials backend) ;;
     when_truthy username (fun username =>
       modify (upd_usernameInput_value (fun _ => username)) ;;
       modify (upd_currentUsername (fun _ => username)) ;;
       password <- invoke get_app_password (on_get_app_password backend) ;;
       when_truthy password (fun password =>
         modify (upd_currentAppPassword (fun _ => password)) ;;
         modify (upd_appPasswordInput_placeholder (fun _ => bullets)) ;;
         showAuthStatus "Credentials saved" "success" ;;
         loadWorkspaces)))
    (fun e => console_error "Failed to load credentials:" e).

(** loadCurrentStatus (main.js 81-90). *)
Definition loadCurrentStatus : M unit :=
  try_catch
    (status <- invoke get_pipeline_statuses (on_get_pipeline_statuses backend) ;;
     if Status.truthy status then updateStatusDisplay status else ret tt)
    (fun e => console_error "Failed to load status:" e).

(** The click listener of the refresh button (main.js 138-141). *)
Definition onRefreshClick : M unit :=
  modify (upd_statusDetails_innerHTML (fun _ =>
    "<p " ++ class_ "loading" ++ ">Refreshing...</p>")) ;;
  invoke trigger_refresh (on_trigger_refresh backend).

(** The entry [addMonitoredPipeline] pushes (main.js 313-320). *)
Definition new_pipeline (workspace projectKey : string) (projectName : option string)
    (repoSlug repoName : string) : Pipeline :=
  {| workspace := workspace;
     project_key := projectKey;
     project_name := projectName;
     repo_slug := repoSlug;
     repo_name := repoName;
     branch := None |}.

(** The duplicate test (main.js 304-306). *)
Definition same_repo (ws repoSlug : string) (p : Pipeline) : bool :=
  String.eqb (workspace p) ws && String.eqb (repo_slug p) repoSlug.

(** addMonitoredPipeline (main.js 291-334). Reading [.text] of the selected
    repository option throws when no option is selected. *)
Definition addMonitoredPipeline : M unit :=
  w <- read ;;
  let workspace := select_value (workspaceSelect w) in
  let projectKey := select_value (projectSelect w) in
  let projectName := or_null (option_map text (selected (projectSelect w))) in
  let repoSlug := select_value (repoSelect w) in
  repoName <- match selected (repoSelect w) with
              | Some o => ret (text o)
              | None => throw "TypeError: Cannot read properties of undefined"
              end ;;
  if negb (truthy workspace) || negb (truthy projectKey) || negb (truthy repoSlug)
  then showNotification "Please select workspace, project, and repository" "error"
  else
    let exists_ := some (same_repo workspace repoSlug) (monitoredPipelines w) in
    if exists_
    then showNotification "This pipeline is already being monitored" "error"
    else
      modify (upd_monitoredPipelines
                (push (new_pipeline workspace projectKey projectName repoSlug repoName))) ;;
      try_catch
        (w1 <- read ;;
         invoke_save_monitored_pipelines (monitoredPipelines w1) ;;
         renderPipelineList ;;
         showNotification "Pipeline added!" "success" ;;
         modify (upd_repoSelect (set_select_value "")) ;;
         modify (upd_addPipelineBtn_disabled (fun _ => true)))
        (fun e =>
           showNotification ("Failed to save: " ++ e) "error" ;;
           modify (upd_monitoredPipelines pop)).

(** removePipeline (main.js 378-387), for the index a remove button carries. *)
Definition removePipeline (index : nat) : M unit :=
  modify (upd_monitoredPipelines (splice1 index)) ;;
  try_catch
    (w1 <- read ;;
     invoke_save_monitored_pipelines (monitoredPipelines w1) ;;
     renderPipelineList ;;
     showNotification "Pipeline removed" "success")
    (fun e => showNotification ("Failed to remove: " ++ e) "error").

(** saveSettings (main.js 389-403). *)
Definition saveSettings : M unit :=
  w <- read ;;
  let interval := parseInt (pollingIntervalInput_value w) in
  if lt interval 30
  then showNotification "Interval must be at least 30 seconds" "error"
  else
    try_catch
      (invoke (set_polling_interval interval)
              (on_set_polling_interval backend interval) ;;
       showNotification "Settings saved!" "success")
      (fun e => showNotification ("Failed to save settings: " ++ e) "error").

End Handlers.

(** The entry that [addMonitoredPipeline] builds from the drop-downs as they
    stand (main.js 292-296 and 313-320). *)
Definition chosen_pipeline (w : World) : Pipeline :=
  new_pipeline (select_value (workspaceSelect w))
               (select_value (projectSelect w))
               (or_null (option_map text (selected (projectSelect w))))
               (select_value (repoSelect w))
               (match selected (repoSelect w) with
                | Some o => text o
                | None => ""
                end).

(** The selection passes the test of main.js 298: a workspace, a project and
    a repository are chosen. *)
Definition complete (w : World) : bool :=
  truthy (select_value (workspaceSelect w))
  && truthy (select_value (projectSelect w))
  && truthy (select_value (repoSelect w)).

(** The page after [showNotification message type]. *)
Definition notified (message type : string) (w : World) : World :=
  run (showNotification message type) w.

(* ================================================================== *)
(** ** The poll scheduler of the backend *)
(* ================================================================== *)

Module Scheduler.

(** Modelled from the spec: the poll scheduler, which is part of the backend
    (sections 4.5 and 5). [in_flight] counts the ticks executing; [pending]
    is the one manual request that is remembered while a tick runs. A manual
    trigger executes immediately if no tick is in flight and is otherwise
    coalesced; a timer tick starts only when no tick is in flight; the tick
    that starts consumes the pending request. *)
Record State : Type := { in_flight : nat; pending : bool }.

Inductive Event : Type :=
| ManualTrigger
| TimerFired
| TickFinished.

Definition initial : State := {| in_flight := 0; pending := false |}.

Definition start_tick (s : State) : State :=
  {| in_flight := S (in_flight s); pending := false |}.

Definition step (s : State) (e : Event) : State :=
  match e with
  | ManualTrigger =>
      if (in_flight s =? 0)%nat then start_tick s
      else {| in_flight := in_flight s; pending := true |}
  | TimerFired =>
      if (in_flight s =? 0)%nat then start_tick s else s
  | TickFinished =>
      {| in_flight := pred (in_flight s); pending := pending s |}
  end.

Definition run (events : list Event) : State := fold_left step events initial.

(** The scheduler events that a list of backend commands gives rise to: one
    manual trigger for each [trigger_refresh]. *)
Definition manual_triggers (cs : list Call) : list Event :=
  flat_map (fun c => match c with
                     | trigger_refresh => [ManualTrigger]
                     | _ => []
                     end) cs.

End Scheduler.

(* ================================================================== *)
(** ** Sample pages and backends *)
(* ================================================================== *)

Module Sample.

Definition no_select : Select :=
  {| options := []; selectedIndex := None; disabled := true |}.

(** A drop-down with its placeholder and one more option, which is selected. *)
Definition chosen (placeholder v t : string) : Select :=
  {| options := [ {| value := ""; text := placeholder |}; {| value := v; text := t |} ];
     selectedIndex := Some 1;
     disabled := false |}.

(** The page before anything was loaded. *)
Definition blank : World :=
  {| currentUsername := "";
     currentAppPassword := "";
     workspaces := [];
     monitoredPipelines := [];
     usernameInput_value := "";
     appPasswordInput_placeholder := "";
     authStatus := {| textContent := ""; className := "status-message"; display := "none" |};
     workspaceSelect := no_select;
     projectSelect := no_select;
     repoSelect := no_select;
     addPipelineBtn_disabled := true;
     pipelineList := [];
     pollingIntervalInput_value := "60";
     statusDetails_innerHTML := "<p>Loading...</p>";
     statusIndicator_className := "status-gray";
     notification := None;
     console := [];
     calls := [];
     stored_pipelines := [] |}.

(** The page with workspace acme, project Platform and repository api chosen. *)
Definition picked : World :=
  upd_workspaceSelect (fun _ => chosen "Select Workspace" "acme" "Acme")
    (upd_projectSelect (fun _ => chosen "Select Project" "PLAT" "Platform")
       (upd_repoSelect (fun _ => chosen "Select Repository" "api" "API server")
          (upd_addPipelineBtn_disabled (fun _ => false) blank))).

Definition api : Pipeline :=
  {| workspace := "acme"; project_key := "PLAT"; project_name := Some "Platform";
     repo_slug := "api"; repo_name := "API server"; branch := None |}.

Definition web : Pipeline :=
  {| workspace := "acme"; project_key := "PLAT"; project_name := Some "Platform";
     repo_slug := "web"; repo_name := "Web client"; branch := None |}.


(** A page that monitors [l], the store of the backend holding the same. *)
Definition monitoring (l : list Pipeline) (w : World) : World :=
  upd_monitoredPipelines (fun _ => l)
    (upd_pipelineList (fun _ => l) (upd_stored_pipelines (fun _ => l) w)).

Definition green : Status.AggregateStatus :=
  {| Status.is_healthy := true;
     Status.total_monitored := 3;
     Status.in_progress_count := 1;
     Status.failed_pipelines := [];
     Status.last_checked := "12:00:05" |}.


(** A backend that answers every command. *)
Definition up : Backend :=
  {| on_get_credentials := Resolved (Some "dev@acme.io");
     on_get_app_password := Resolved (Some "s3cret");
     on_get_workspaces := fun _ _ => Resolved [ {| slug := "acme"; name := Some "Acme" |} ];
     on_get_pipeline_statuses := Resolved (Status.Snapshot green);
     on_save_monitored_pipelines := fun _ => Resolved tt;
     on_set_polling_interval := fun _ => Resolved tt;
     on_trigger_refresh := Resolved tt |}.

(** A backend that rejects every command. *)
Definition down : Backend :=
  {| on_get_credentials := Rejected "offline";
     on_get_app_password := Rejected "offline";
     on_get_workspaces := fun _ _ => Rejected "offline";
     on_get_pipeline_statuses := Rejected "offline";
     on_save_monitored_pipelines := fun _ => Rejected "disk full";
     on_set_polling_interval := fun _ => Rejected "offline";
     on_trigger_refresh := Rejected "offline" |}.

(** A backend with nothing configured yet. *)
Definition fresh : Backend :=
  {| on_get_credentials := Resolved None;
     on_get_app_password := Resolved None;
     on_get_workspaces := fun _ _ => Resolved [];
     on_get_pipeline_statuses := Resolved Status.Null;
     on_save_monitored_pipelines := fun _ => Resolved tt;
     on_set_polling_interval := fun _ => Resolved tt;
     on_trigger_refresh := Resolved tt |}.

(** A user name is stored, but no password. *)
Definition half : Backend :=
  {| on_get_credentials := Resolved (Some "dev@acme.io");
     on_get_app_password := Resolved (Some "");
     on_get_workspaces := fun _ _ => Resolved [];
     on_get_pipeline_statuses := Resolved Status.Undefined;
     on_save_monitored_pipelines := fun _ => Resolved tt;
     on_set_polling_interval := fun _ => Resolved tt;
     on_trigger_refresh := Resolved tt |}.

End Sample.

(* ================================================================== *)
(** ** The children of the pipeline list *)
(* ================================================================== *)

From Stdlib Require Import Permutation Sorted.
From Stdlib Require DecimalN.

(** A child that renderPipelineList (main.js 336-376) gives the list: the
    [li.empty] that says no pipeline is monitored, a [li.workspace-header]
    with its text, or a [li.pipeline-item] with its markup and the index that
    the click listener of its remove button passes to removePipeline. *)
Inductive Li : Type :=
| li_empty
| li_header (header : string)
| li_pipeline (markup : string) (index : nat).

(** [{ pipeline, index }] (main.js 351). *)
Definition Entry : Type := (Pipeline * nat)%type.

(** The object [grouped]: its own properties, in the order of creation. *)
Definition Grouped : Type := list (string * list Entry).

(** The property names that every object inherits from [Object.prototype];
    read on [grouped] they give a function (or, for [__proto__], the
    prototype), never an array. *)
Definition inherited_names : list string :=
  [ "constructor"; "hasOwnProperty"; "isPrototypeOf"; "propertyIsEnumerable";
    "toLocaleString"; "toString"; "valueOf"; "__proto__";
    "__defineGetter__"; "__defineSetter__"; "__lookupGetter__"; "__lookupSetter__" ].

Definition inherited (k : string) : bool := existsb (String.eqb k) inherited_names.

(** [pipeline.project_name || pipeline.workspace] (main.js 347). *)
Definition groupKey (p : Pipeline) : string := or_else (project_name p) (workspace p).

(** [if (!grouped[k]) grouped[k] = []; grouped[k].push(x)] for a key that is
    not inherited: an own array is extended where it stands, a new one is
    created after the others. *)
Fixpoint push_to (k : string) (x : Entry) (grouped : Grouped) : Grouped :=
  match grouped with
  | [] => [(k, [x])]
  | (k', xs) :: rest =>
      if String.eqb k' k then (k', app xs [x]) :: rest
      else (k', xs) :: push_to k x rest
  end.

(** The first [forEach] (main.js 346-352), from the index [index] on. For an
    inherited key the test of line 348 finds a truthy value, no array is
    created, and [push] is not a function of what is found: a TypeError, of
    which the text is the engine's (one is fixed here). *)
Fixpoint group_from (index : nat) (l : list Pipeline) (grouped : Grouped)
    : Outcome Grouped :=
  match l with
  | [] => Value grouped
  | pipeline :: rest =>
      if inherited (groupKey pipeline)
      then Throw "TypeError: grouped[groupKey].push is not a function"
      else group_from (S index) rest (push_to (groupKey pipeline) (pipeline, index) grouped)
  end.

(** The number a string of decimal digits stands for. *)
Fixpoint decimal_from (acc : N) (s : string) : option N :=
  match s with
  | EmptyString => Some acc
  | String c rest =>
      match digit_of c with
      | Some d => decimal_from (10 * acc + Z.to_N d) rest
      | None => None
      end
  end.

(** An array index: the canonical decimal form of an integer from 0 to
    2^32 - 2. *)
Definition array_index (k : string) : option N :=
  match k with
  | EmptyString => None
  | _ =>
      match decimal_from 0 k with
      | Some n =>
          if String.eqb (show_count n) k && (n <? 4294967295)%N then Some n else None
      | None => None
      end
  end.

Definition is_array_index (k : string) : bool :=
  match array_index k with
  | Some _ => true
  | None => false
  end.

Fixpoint insert_index {V} (n : N) (e : string * V) (sorted : list (N * (string * V)))
    : list (N * (string * V)) :=
  match sorted with
  | [] => [(n, e)]
  | (m, e') :: rest =>
      if (n <? m)%N then (n, e) :: sorted else (m, e') :: insert_index n e rest
  end.

Definition index_properties {V} (o : list (string * V)) : list (N * (string * V)) :=
  flat_map (fun e => match array_index (fst e) with
                     | Some n => [(n, e)]
                     | None => []
                     end) o.

(** The own properties in the order of [Object.keys]: the array indices in
    ascending order, then the other names in the order of creation. *)
Definition in_key_order {V} (o : list (string * V)) : list (string * V) :=
  app (map snd (fold_right (fun ne acc => insert_index (fst ne) (snd ne) acc) []
                           (index_properties o)))
      (filter (fun e => negb (is_array_index (fst e))) o).

(** The markup of a pipeline item (main.js 366-369) and its listener. *)
Definition pipeline_item (e : Entry) : Li :=
  let '(pipeline, index) := e in
  li_pipeline
    (nl ++ spaces 16 ++ "<span " ++ class_ "pipeline-name" ++ ">"
        ++ (if truthy (repo_name pipeline) then repo_name pipeline
            else repo_slug pipeline)
        ++ "</span>"
        ++ nl ++ spaces 16 ++ "<button type=" ++ dq ++ "button" ++ dq ++ " "
        ++ class_ "remove-btn" ++ " data-index=" ++ dq
        ++ show_count (N.of_nat index) ++ dq ++ ">Remove</button>"
        ++ nl ++ spaces 12)
    index.

(** The second [forEach] (main.js 355-375): a header, then its pipelines. *)
Definition group_children (kv : string * list Entry) : list Li :=
  li_header (fst kv) :: map pipeline_item (snd kv).

(** renderPipelineList (main.js 336-376) on the list [l]: how it completes
    and the children it leaves in the list. ([renderPipelineList] above keeps
    only which list was rendered; here is what is rendered.) *)
Definition renderPipelineList_children (l : list Pipeline) : Outcome unit * list Li :=
  match l with
  | [] => (Value tt, [li_empty])
  | _ :: _ =>
      match group_from 0 l [] with
      | Value grouped => (Value tt, flat_map group_children (in_key_order grouped))
      | Throw e => (Throw e, [])
      end
  end.

(** The entries of a list: each pipeline with its position. *)
Definition entries (l : list Pipeline) : list Entry := combine l (seq 0 (length l)).

(** The distinct strings of a list, in the order of first appearance. *)
Definition first_seen (ks : list string) : list string :=
  fold_left (fun seen k => if existsb (String.eqb k) seen then seen else app seen [k])
            ks [].

(** The entries that belong under the header [k]. *)
Definition under (k : string) (es : list Entry) : list Entry :=
  filter (fun e => String.eqb (groupKey (fst e)) k) es.

(** The indices of the remove buttons, in the order of the children. *)
Definition remove_buttons (children : list Li) : list nat :=
  flat_map (fun c => match c with
                     | li_pipeline _ index => [index]
                     | _ => []
                     end) children.

(** The groups, said directly: one for each distinct key, in the order of
    first appearance, with the entries of that key in the order of the list. *)
Definition groups_of (es : list Entry) : Grouped :=
  map (fun k => (k, under k es)) (first_seen (map (fun e => groupKey (fst e)) es)).


(* ================================================================== *)
(** ** The rest of the page: credentials form, drop-downs, start-up *)
(* ================================================================== *)

Module Project.
Record t : Type := { key : string; name : option string }.
End Project.

Module Repository.
Record t : Type := { slug : string; name : option string }.
End Repository.

(** The commands of the backend that the handlers above do not invoke. *)
Inductive Command : Type :=
| get_monitored_pipelines
| get_polling_interval
| save_credentials (username appPassword : string)
| get_projects (username appPassword ws : string)
| get_repositories_by_project (username appPassword ws projectKey : string).

(** How the backend settles these commands while one handler runs. The poll
    interval is a number of seconds, a non-negative integer. *)
Record Services : Type := {
  on_get_monitored_pipelines : Settled (list Pipeline);
  on_get_polling_interval : Settled N;
  on_save_credentials : string -> string -> Settled unit;
  on_get_projects : string -> string -> string -> Settled (list Project.t);
  on_get_repositories_by_project :
    string -> string -> string -> string -> Settled (list Repository.t)
}.

(** The save button of the credentials form: the [display] of its two labels
    and whether it is disabled. *)
Record SaveAuthBtn : Type := {
  btn_text_display : string;
  btn_loading_display : string;
  btn_disabled : bool
}.

(** The page as a whole: the part above, and the variables and elements that
    only the handlers below touch. *)
Record Page : Type := {
  world : World;
  projects : list Project.t;
  repositories : list Repository.t;
  currentWorkspace : string;
  appPasswordInput_value : string;
  saveAuthBtn : SaveAuthBtn;
  pipelineList_children : list Li;  (* the children of the pipeline list *)
  commands : list Command      (* commands of [Command] invoked, oldest first *)
}.

Definition on_world (f : _ -> _) (pg : Page) : Page :=
  {| world := f (world pg);
     projects := projects pg;
     repositories := repositories pg;
     currentWorkspace := currentWorkspace pg;
     appPasswordInput_value := appPasswordInput_value pg;
     saveAuthBtn := saveAuthBtn pg;
     pipelineList_children := pipelineList_children pg;
     commands := commands pg |}.

Definition on_projects (f : _ -> _) (pg : Page) : Page :=
  {| world := world pg;
     projects := f (projects pg);
     repositories := repositories pg;
     currentWorkspace := currentWorkspace pg;
     appPasswordInput_value := appPasswordInput_value pg;
     saveAuthBtn := saveAuthBtn pg;
     pipelineList_children := pipelineList_children pg;
     commands := commands pg |}.

Definition on_repositories (f : _ -> _) (pg : Page) : Page :=
  {| world := world pg;
     projects := projects pg;
     repositories := f (repositories pg);
     currentWorkspace := currentWorkspace pg;
     appPasswordInput_value := appPasswordInput_value pg;
     saveAuthBtn := saveAuthBtn pg;
     pipelineList_children := pipelineList_children pg;
     commands := commands pg |}.

Definition on_currentWorkspace (f : _ -> _) (pg : Page) : Page :=
  {| world := world pg;
     projects := projects pg;
     repositories := repositories pg;
     currentWorkspace := f (currentWorkspace pg);
     appPasswordInput_value := appPasswordInput_value pg;
     saveAuthBtn := saveAuthBtn pg;
     pipelineList_children := pipelineList_children pg;
     commands := commands pg |}.

Definition on_appPasswordInput_value (f : _ -> _) (pg : Page) : Page :=
  {| world := world pg;
     projects := projects pg;
     repositories := repositories pg;
     currentWorkspace := currentWorkspace pg;
     appPasswordInput_value := f (appPasswordInput_value pg);
     saveAuthBtn := saveAuthBtn pg;
     pipelineList_children := pipelineList_children pg;
     commands := commands pg |}.

Definition on_saveAuthBtn (f : _ -> _) (pg : Page) : Page :=
  {| world := world pg;
     projects := projects pg;
     repositories := repositories pg;
     currentWorkspace := currentWorkspace pg;
     appPasswordInput_value := appPasswordInput_value pg;
     saveAuthBtn := f (saveAuthBtn pg);
     pipelineList_children := pipelineList_children pg;
     commands := commands pg |}.

Definition on_pipelineList_children (f : _ -> _) (pg : Page) : Page :=
  {| world := world pg;
     projects := projects pg;
     repositories := repositories pg;
     currentWorkspace := currentWorkspace pg;
     appPasswordInput_value := appPasswordInput_value pg;
     saveAuthBtn := saveAuthBtn pg;
     pipelineList_children := f (pipelineList_children pg);
     commands := commands pg |}.

Definition on_commands (f : _ -> _) (pg : Page) : Page :=
  {| world := world pg;
     projects := projects pg;
     repositories := repositories pg;
     currentWorkspace := currentWorkspace pg;
     appPasswordInput_value := appPasswordInput_value pg;
     saveAuthBtn := saveAuthBtn pg;
     pipelineList_children := pipelineList_children pg;
     commands := f (commands pg) |}.

(** Handlers over the whole page, with the same outcomes as before. *)
Definition P (A : Type) : Type := Page -> Outcome A * Page.

Definition pret {A} (a : A) : P A := fun pg => (Value a, pg).

Definition pbind {A B} (c : P A) (k : A -> P B) : P B :=
  fun pg =>
    match c pg with
    | (Value a, pg1) => k a pg1
    | (Throw e, pg1) => (Throw e, pg1)
    end.

Declare Scope page_scope.
Notation "x <- c ;; k" := (pbind c (fun x => k))
  (at level 61, c at next level, right associativity) : page_scope.
Notation "c ;; k" := (pbind c (fun _ => k))
  (at level 61, right associativity) : page_scope.

(** [try { body } catch (e) { handler }]. *)
Definition ptry_catch {A} (body : P A) (handler : string -> P A) : P A :=
  fun pg =>
    match body pg with
    | (Value a, pg1) => (Value a, pg1)
    | (Throw e, pg1) => handler e pg1
    end.

(** [try { body } finally { after }]: [after] runs however [body] ends, and
    the outcome is that of [body] unless [after] throws. *)
Definition pfinally {A} (body : P A) (after : P unit) : P A :=
  fun pg =>
    match body pg with
    | (outcome, pg1) =>
        match after pg1 with
        | (Value _, pg2) => (outcome, pg2)
        | (Throw e, pg2) => (Throw e, pg2)
        end
    end.

Definition pthrow {A} (e : string) : P A := fun pg => (Throw e, pg).

Definition pread : P Page := fun pg => (Value pg, pg).
Definition pmodify (f : Page -> Page) : P unit := fun pg => (Value tt, f pg).

(** A handler of the part above, run on that part of the page. *)
Definition lift {A} (c : M A) : P A :=
  fun pg =>
    match c (world pg) with
    | (outcome, w1) => (outcome, on_world (fun _ => w1) pg)
    end.

Definition prun {A} (c : P A) (pg : Page) : Page := snd (c pg).

(** [await invoke(c, ...)] for the commands of [Command]. *)
Definition pinvoke {A} (c : Command) (answer : Settled A) : P A :=
  fun pg =>
    (match answer with
     | Resolved a => Value a
     | Rejected e => Throw e
     end,
     on_commands (fun l => app l [c]) pg).

(** [s.trim()], on the same white space as [parseInt] skips. *)
Fixpoint trim_end (s : string) : string :=
  match s with
  | EmptyString => EmptyString
  | String c rest =>
      match trim_end rest with
      | EmptyString => if is_white c then EmptyString else String c EmptyString
      | kept => String c kept
      end
  end.

Definition trim (s : string) : string := trim_end (trim_start s).

(** [s.innerHTML = '<option value="">label</option>']: the drop-down is left
    with this one option, which is selected. *)
Definition only_option (label : string) (s : Select) : Select :=
  {| options := [ {| value := ""; text := label |} ];
     selectedIndex := Some O;
     disabled := disabled s |}.

Definition set_disabled (b : bool) (s : Select) : Select :=
  {| options := options s; selectedIndex := selectedIndex s; disabled := b |}.

(** The user picks the option at position [i]. *)
Definition choose (i : nat) (s : Select) : Select :=
  {| options := options s; selectedIndex := Some i; disabled := disabled s |}.

Section PageHandlers.

Variable backend : Backend.
Variable services : Services.

Local Open Scope page_scope.

(** renderPipelineList (main.js 336-376) with the children it leaves: the
    list is emptied and filled again, and a TypeError of the grouping ends
    the function with the list empty. [pipelineList] above follows the
    renderings that complete. *)
Definition renderPipelineList_full : P unit :=
  pg <- pread ;;
  let '(outcome, children) :=
    renderPipelineList_children (monitoredPipelines (world pg)) in
  pmodify (on_pipelineList_children (fun _ => children)) ;;
  match outcome with
  | Value _ => lift renderPipelineList
  | Throw e => pthrow e
  end.

(** addMonitoredPipeline (main.js 291-334) with the rendering in full: as
    [addMonitoredPipeline] above, except that what renderPipelineList throws
    is caught by the [catch] of line 330 like a rejected save. *)
Definition addMonitoredPipeline_full : P unit :=
  pg <- pread ;;
  let w := world pg in
  let ws := select_value (workspaceSelect w) in
  let projectKey := select_value (projectSelect w) in
  let projectName := or_null (option_map text (selected (projectSelect w))) in
  let repoSlug := select_value (repoSelect w) in
  repoName <- match selected (repoSelect w) with
              | Some o => pret (text o)
              | None => pthrow "TypeError: Cannot read properties of undefined"
              end ;;
  if negb (truthy ws) || negb (truthy projectKey) || negb (truthy repoSlug)
  then lift (showNotification "Please select workspace, project, and repository" "error")
  else
    let exists_ := some (same_repo ws repoSlug) (monitoredPipelines w) in
    if exists_
    then lift (showNotification "This pipeline is already being monitored" "error")
    else
      lift (modify (upd_monitoredPipelines
                      (push (new_pipeline ws projectKey projectName repoSlug repoName)))) ;;
      ptry_catch
        (pg1 <- pread ;;
         lift (invoke_save_monitored_pipelines backend (monitoredPipelines (world pg1))) ;;
         renderPipelineList_full ;;
         lift (showNotification "Pipeline added!" "success") ;;
         lift (modify (upd_repoSelect (set_select_value ""))) ;;
         lift (modify (upd_addPipelineBtn_disabled (fun _ => true))))
        (fun e =>
           lift (showNotification ("Failed to save: " ++ e) "error") ;;
           lift (modify (upd_monitoredPipelines pop))).

(** removePipeline (main.js 378-387) with the rendering in full. *)
Definition removePipeline_full (index : nat) : P unit :=
  lift (modify (upd_monitoredPipelines (splice1 index))) ;;
  ptry_catch
    (pg1 <- pread ;;
     lift (invoke_save_monitored_pipelines backend (monitoredPipelines (world pg1))) ;;
     renderPipelineList_full ;;
     lift (showNotification "Pipeline removed" "success"))
    (fun e => lift (showNotification ("Failed to remove: " ++ e) "error")).

(** loadMonitoredPipelines (main.js 63-70). *)
Definition loadMonitoredPipelines : P unit :=
  ptry_catch
    (loaded <- pinvoke get_monitored_pipelines (on_get_monitored_pipelines services) ;;
     lift (modify (upd_monitoredPipelines (fun _ => loaded))) ;;
     renderPipelineList_full)
    (fun e => lift (console_error "Failed to load monitored pipelines:" e)).

(** loadPollingInterval (main.js 72-79): the field is given the text of the
    number. *)
Definition loadPollingInterval : P unit :=
  ptry_catch
    (interval <- pinvoke get_polling_interval (on_get_polling_interval services) ;;
     lift (modify (upd_pollingIntervalInput_value (fun _ => show_count interval))))
    (fun e => lift (console_error "Failed to load polling interval:" e)).

(** The handler of DOMContentLoaded (main.js 34-41). setupEventListeners and
    listenForStatusUpdates only register the listeners given here as
    functions of their own. *)
Definition init : P unit :=
  lift (loadSavedCredentials backend) ;;
  loadMonitoredPipelines ;;
  loadPollingInterval ;;
  lift (loadCurrentStatus backend).

(** saveCredentials (main.js 150-181). *)
Definition saveCredentials : P unit :=
  pg <- pread ;;
  let username := trim (usernameInput_value (world pg)) in
  let appPassword := trim (appPasswordInput_value pg) in
  if negb (truthy username) || negb (truthy appPassword)
  then lift (showAuthStatus "Please enter both username and app password" "error")
  else
    pmodify (on_saveAuthBtn (fun _ =>
      {| btn_text_display := "none"; btn_loading_display := "inline";
         btn_disabled := true |})) ;;
    pfinally
      (ptry_catch
         (pinvoke (save_credentials username appPassword)
                  (on_save_credentials services username appPassword) ;;
          lift (modify (upd_currentUsername (fun _ => username))) ;;
          lift (modify (upd_currentAppPassword (fun _ => appPassword))) ;;
          pmodify (on_appPasswordInput_value (fun _ => "")) ;;
          lift (modify (upd_appPasswordInput_placeholder (fun _ => bullets))) ;;
          lift (showAuthStatus "Credentials saved successfully!" "success") ;;
          lift (loadWorkspaces backend))
         (fun e => lift (showAuthStatus ("Error: " ++ e) "error")))
      (pmodify (on_saveAuthBtn (fun _ =>
         {| btn_text_display := "inline"; btn_loading_display := "none";
            btn_disabled := false |}))).

(** populateProjectSelect (main.js 269-278). *)
Definition populateProjectSelect : P unit :=
  pg <- pread ;;
  lift (modify (upd_projectSelect (fun _ =>
    {| options :=
         {| value := ""; text := "Select Project" |}
         :: map (fun proj => {| value := Project.key proj;
                                text := or_else (Project.name proj) (Project.key proj) |})
                (projects pg);
       selectedIndex := Some O;
       disabled := false |}))).

(** populateRepoSelect (main.js 280-289). *)
Definition populateRepoSelect : P unit :=
  pg <- pread ;;
  lift (modify (upd_repoSelect (fun _ =>
    {| options :=
         {| value := ""; text := "Select Repository" |}
         :: map (fun repo => {| value := Repository.slug repo;
                                text := or_else (Repository.name repo)
                                                (Repository.slug repo) |})
                (repositories pg);
       selectedIndex := Some O;
       disabled := false |}))).

(** loadProjects (main.js 198-217). *)
Definition loadProjects (ws : string) : P unit :=
  pg <- pread ;;
  if negb (truthy (currentUsername (world pg)))
     || negb (truthy (currentAppPassword (world pg)))
  then pret tt
  else
    lift (modify (upd_projectSelect (fun s =>
            set_disabled true (only_option "Loading..." s)))) ;;
    lift (modify (upd_repoSelect (fun s =>
            set_disabled true (only_option "Select Repository" s)))) ;;
    ptry_catch
      (loaded <- pinvoke (get_projects (currentUsername (world pg))
                                       (currentAppPassword (world pg)) ws)
                         (on_get_projects services (currentUsername (world pg))
                                          (currentAppPassword (world pg)) ws) ;;
       pmodify (on_projects (fun _ => loaded)) ;;
       populateProjectSelect)
      (fun e =>
         lift (console_error "Failed to load projects:" e) ;;
         lift (modify (upd_projectSelect (only_option "Error loading projects")))).

(** loadRepositoriesByProject (main.js 219-237). *)
Definition loadRepositoriesByProject (ws projectKey : string) : P unit :=
  pg <- pread ;;
  if negb (truthy (currentUsername (world pg)))
     || negb (truthy (currentAppPassword (world pg)))
  then pret tt
  else
    lift (modify (upd_repoSelect (fun s =>
            set_disabled true (only_option "Loading..." s)))) ;;
    ptry_catch
      (loaded <- pinvoke (get_repositories_by_project (currentUsername (world pg))
                            (currentAppPassword (world pg)) ws projectKey)
                         (on_get_repositories_by_project services
                            (currentUsername (world pg))
                            (currentAppPassword (world pg)) ws projectKey) ;;
       pmodify (on_repositories (fun _ => loaded)) ;;
       populateRepoSelect)
      (fun e =>
         lift (console_error "Failed to load repositories:" e) ;;
         lift (modify (upd_repoSelect (only_option "Error loading repos")))).

(** The [change] listener of the workspace drop-down (main.js 100-112). *)
Definition onWorkspaceChange : P unit :=
  pg <- pread ;;
  let ws := select_value (workspaceSelect (world pg)) in
  pmodify (on_currentWorkspace (fun _ => ws)) ;;
  if truthy ws then loadProjects ws
  else
    lift (modify (upd_projectSelect (fun s =>
            set_disabled true (only_option "Select Project" s)))) ;;
    lift (modify (upd_repoSelect (fun s =>
            set_disabled true (only_option "Select Repository" s)))) ;;
    lift (modify (upd_addPipelineBtn_disabled (fun _ => true))).

(** The [change] listener of the project drop-down (main.js 115-124). *)
Definition onProjectChange : P unit :=
  pg <- pread ;;
  let projectKey := select_value (projectSelect (world pg)) in
  if truthy projectKey && truthy (currentWorkspace pg)
  then loadRepositoriesByProject (currentWorkspace pg) projectKey
  else
    lift (modify (upd_repoSelect (fun s =>
            set_disabled true (only_option "Select Repository" s)))) ;;
    lift (modify (upd_addPipelineBtn_disabled (fun _ => true))).

(** The [change] listener of the repository drop-down (main.js 127-129). *)
Definition onRepoChange : P unit :=
  pg <- pread ;;
  lift (modify (upd_addPipelineBtn_disabled (fun _ =>
    negb (truthy (select_value (repoSelect (world pg))))))).

End PageHandlers.

(** The number a decimal numeral stands for when read from the left, [acc]
    being the value of the digits before it. *)
Fixpoint numeral_value (acc : N) (d : Decimal.uint) : N :=
  match d with
  | Decimal.Nil => acc
  | Decimal.D0 d => numeral_value (10 * acc) d
  | Decimal.D1 d => numeral_value (10 * acc + 1) d
  | Decimal.D2 d => numeral_value (10 * acc + 2) d
  | Decimal.D3 d => numeral_value (10 * acc + 3) d
  | Decimal.D4 d => numeral_value (10 * acc + 4) d
  | Decimal.D5 d => numeral_value (10 * acc + 5) d
  | Decimal.D6 d => numeral_value (10 * acc + 6) d
  | Decimal.D7 d => numeral_value (10 * acc + 7) d
  | Decimal.D8 d => numeral_value (10 * acc + 8) d
  | Decimal.D9 d => numeral_value (10 * acc + 9) d
  end.

(** The page after the list was changed by [f] and sent to the backend. *)
Definition sent_after (f : list Pipeline -> list Pipeline) (w : World) : World :=
  upd_calls (fun c => app c [save_monitored_pipelines (f (monitoredPipelines w))])
    (upd_monitoredPipelines f w).

(** The children of the list are those of the list as it stands. *)
Definition rendered (pg : Page) : Prop :=
  pipelineList_children pg
  = snd (renderPipelineList_children (monitoredPipelines (world pg))).

(** No group key of the list is inherited: the list can be rendered. *)
Definition renderable (l : list Pipeline) : Prop :=
  forall p, In p l -> inherited (groupKey p) = false.

Module Fixture.

Definition docs : Pipeline :=
  {| workspace := "acme"; project_key := "DOCS"; project_name := Some "Docs";
     repo_slug := "handbook"; repo_name := ""; branch := None |}.

(** A pipeline of the project named 2024, and one with no project name. *)
Definition y2024 : Pipeline :=
  {| workspace := "acme"; project_key := "Y24"; project_name := Some "2024";
     repo_slug := "archive"; repo_name := "Archive"; branch := None |}.

Definition loose : Pipeline :=
  {| workspace := "acme"; project_key := "X"; project_name := None;
     repo_slug := "tools"; repo_name := "Tools"; branch := None |}.

(** A pipeline of a project that is named constructor. *)
Definition odd : Pipeline :=
  {| workspace := "acme"; project_key := "CTOR"; project_name := Some "constructor";
     repo_slug := "gen"; repo_name := "Generator"; branch := None |}.

(** The page as loaded, with nothing typed and the list rendered. *)
Definition page (w : World) : Page :=
  {| world := w;
     projects := [];
     repositories := [];
     currentWorkspace := "";
     appPasswordInput_value := "";
     saveAuthBtn := {| btn_text_display := "inline"; btn_loading_display := "none";
                       btn_disabled := false |};
     pipelineList_children := snd (renderPipelineList_children (monitoredPipelines w));
     commands := [] |}.


(** The rest of a backend that answers, and of one that rejects. *)
Definition serving : Services :=
  {| on_get_monitored_pipelines := Resolved [Sample.api; Sample.web];
     on_get_polling_interval := Resolved 60%N;
     on_save_credentials := fun _ _ => Resolved tt;
     on_get_projects := fun _ _ _ =>
       Resolved [ {| Project.key := "PLAT"; Project.name := Some "Platform" |} ];
     on_get_repositories_by_project := fun _ _ _ _ =>
       Resolved [ {| Repository.slug := "api"; Repository.name := Some "API server" |} ] |}.

Definition failing : Services :=
  {| on_get_monitored_pipelines := Rejected "offline";
     on_get_polling_interval := Rejected "offline";
     on_save_credentials := fun _ _ => Rejected "keychain locked";
     on_get_projects := fun _ _ _ => Rejected "offline";
     on_get_repositories_by_project := fun _ _ _ _ => Rejected "offline" |}.

(** A page on which the credentials are loaded and acme is chosen, with a
    project and a repository still selected from before. *)
Definition signed_in : Page :=
  page (upd_currentUsername (fun _ => "dev@acme.io")
          (upd_currentAppPassword (fun _ => "s3cret") Sample.picked)).

(** The page with the project that is named constructor chosen, and its
    repository gen. *)
Definition picked_odd : World :=
  upd_projectSelect (fun _ => Sample.chosen "Select Project" "CTOR" "constructor")
    (upd_repoSelect (fun _ => Sample.chosen "Select Repository" "gen" "Generator")
       Sample.picked).

End Fixture.

(* ================================================================== *)
(** ** Checks on concrete inputs *)
(* ================================================================== *)

Example parseInt_60 : parseInt "60" = Int 60.
Proof. reflexivity. Qed.

Example parseInt_padded : parseInt "  +45s" = Int 45.
Proof. reflexivity. Qed.

Example parseInt_fraction : parseInt "29.9" = Int 29.
Proof. reflexivity. Qed.

Example parseInt_negative : parseInt "-5" = Int (-5).
Proof. reflexivity. Qed.

Example parseInt_empty : parseInt "" = NaN.
Proof. reflexivity. Qed.

Example parseInt_letters : parseInt "abc" = NaN.
Proof. reflexivity. Qed.

Example splice1_middle : splice1 1 [10; 20; 30] = [10; 30].
Proof. reflexivity. Qed.

Example splice1_past_end : splice1 5 [10; 20; 30] = [10; 20; 30].
Proof. reflexivity. Qed.

Example join_commas : join ", " ["a"; "b"; "c"] = "a, b, c".
Proof. reflexivity. Qed.

Example healthy_markup :
  statusDetails_innerHTML
    (run (updateStatusDisplay (Status.Snapshot Sample.green)) Sample.blank)
  = "<p class=" ++ dq ++ "healthy" ++ dq ++ ">All 3 pipeline(s) healthy</p>"
    ++ "<p class=" ++ dq ++ "in-progress" ++ dq ++ ">1 in progress</p>"
    ++ "<p class=" ++ dq ++ "last-checked" ++ dq ++ ">Last checked: 12:00:05</p>".
Proof. reflexivity. Qed.

Example add_on_blank_list :
  monitoredPipelines (run (addMonitoredPipeline Sample.up) Sample.picked)
  = [Sample.api].
Proof. reflexivity. Qed.

(* ================================================================== *)
(** ** Facts about the built-ins *)
(* ================================================================== *)


Lemma append_assoc (a b c : string) : (a ++ b) ++ c = a ++ b ++ c.
Proof. induction a as [|x a IH]; simpl; [reflexivity | now rewrite IH]. Qed.

Lemma prefix_append (a b : string) : String.prefix a (a ++ b) = true.
Proof.
  induction a as [|x a IH]; simpl; [now destruct b |].
  destruct (ascii_dec x x) as [_ | ne]; [exact IH | now elim ne].
Qed.



Lemma splice1_length {A} (i : nat) (l : list A) :
  i < length l -> S (length (splice1 i l)) = length l.
Proof.
  intros Hi. unfold splice1.
  rewrite length_app, length_firstn, length_skipn. lia.
Qed.


Lemma some_false_iff {A} (f : A -> bool) (l : list A) :
  some f l = false <-> forall x, In x l -> f x = false.
Proof.
  unfold some. induction l as [|y l IH]; simpl.
  - split; [intros _ x [] | reflexivity].
  - rewrite orb_false_iff, IH. split.
    + intros [Hy Hl] x [<- | Hx]; auto.
    + intros H. split; [apply H; now left | intros x Hx; apply H; now right].
Qed.

(** The number [parseInt] returns is below 30 exactly when it is an integer
    below 30; NaN is not. *)
Lemma lt_30_iff (x : Number) : lt x 30 = true <-> exists z, x = Int z /\ (z < 30)%Z.
Proof.
  destruct x as [|z]; simpl.
  - split; [discriminate | intros (z & H & _); discriminate].
  - rewrite Z.ltb_lt. split.
    + intros H. now exists z.
    + intros (z' & H & Hz). now injection H as ->.
Qed.

(* ================================================================== *)
(** ** The status display *)
(* ================================================================== *)

(** Reading a property of null or of undefined throws, and a throw ends the
    handler where it stands. *)
Lemma field_of_absent_throws {A} (f : Status.AggregateStatus -> A) (w : World) :
  fst (field f Status.Null w) = Throw "TypeError: Cannot read properties of null" /\
  fst (field f Status.Undefined w)
  = Throw "TypeError: Cannot read properties of undefined" /\
  forall (k : A -> M unit),
    bind (field f Status.Null) k w = (Throw "TypeError: Cannot read properties of null", w).
Proof. repeat split. Qed.

(** C10. updateStatusDisplay is total over an absent status: for null and for
    undefined it completes without throwing (no property of the argument is
    read, which would throw), writes the message [No status available] to
    the status details and sets the indicator to gray; nothing else on the
    page changes. *)
Theorem updateStatusDisplay_absent (w : World) :
  let shown :=
    upd_statusIndicator_className (fun _ => "status-gray")
      (upd_statusDetails_innerHTML (fun _ => "<p>No status available</p>") w) in
  updateStatusDisplay Status.Null w = (Value tt, shown) /\
  updateStatusDisplay Status.Undefined w = (Value tt, shown) /\
  statusDetails_innerHTML shown = "<p>No status available</p>" /\
  statusIndicator_className shown = "status-gray".
Proof.
  destruct w; simpl. repeat split.
Qed.

(** For a snapshot the display is a function of the snapshot alone. *)
Lemma updateStatusDisplay_snapshot (s : Status.AggregateStatus) (w : World) :
  fst (updateStatusDisplay (Status.Snapshot s) w) = Value tt /\
  statusIndicator_className (run (updateStatusDisplay (Status.Snapshot s)) w)
  = (if Status.is_healthy s then "status-green" else "status-red") /\
  statusDetails_innerHTML (run (updateStatusDisplay (Status.Snapshot s)) w)
  = (if Status.is_healthy s then
       ("<p " ++ class_ "healthy" ++ ">All " ++ show_count (Status.total_monitored s)
              ++ " pipeline(s) healthy</p>")
       ++ (if (0 <? Status.in_progress_count s)%N
           then "<p " ++ class_ "in-progress" ++ ">"
                      ++ show_count (Status.in_progress_count s) ++ " in progress</p>"
           else "")
       ++ "<p " ++ class_ "last-checked" ++ ">Last checked: "
       ++ Status.last_checked s ++ "</p>"
     else
       nl ++ spaces 12 ++ "<p " ++ class_ "failed" ++ ">"
          ++ show_count (N.of_nat (length (Status.failed_pipelines s)))
          ++ " pipeline(s) failed</p>"
          ++ nl ++ spaces 12 ++ "<ul " ++ class_ "failed-list" ++ ">"
          ++ join "" (map failed_item (Status.failed_pipelines s)) ++ "</ul>"
          ++ nl ++ spaces 12 ++ "<p " ++ class_ "last-checked" ++ ">Last checked: "
          ++ Status.last_checked s ++ "</p>"
          ++ nl ++ spaces 8).
Proof.
  destruct s as [healthy total running failed checked], w.
  unfold run, updateStatusDisplay, field, bind, ret, modify.
  destruct healthy; cbn [Status.truthy negb fst snd Status.is_healthy
    Status.total_monitored Status.in_progress_count Status.failed_pipelines
    Status.last_checked upd_statusIndicator_className upd_statusDetails_innerHTML
    statusIndicator_className statusDetails_innerHTML].
  - repeat split. destruct (0 <? running)%N.
    + now rewrite !append_assoc.
    + now rewrite !append_assoc.
  - repeat split.
Qed.

(** C3. For every snapshot delivered to updateStatusDisplay, the indicator is
    set to [status-green] and the details start with the all-healthy message
    exactly when [is_healthy] is true, and the indicator is set to
    [status-red] and the details are the failed-pipeline list exactly when
    [is_healthy] is false. *)
Theorem updateStatusDisplay_reflects_health (s : Status.AggregateStatus) (w : World) :
  let w' := run (updateStatusDisplay (Status.Snapshot s)) w in
  (Status.is_healthy s = true <-> statusIndicator_className w' = "status-green") /\
  (Status.is_healthy s = false <-> statusIndicator_className w' = "status-red") /\
  (Status.is_healthy s = true <->
   String.prefix
     ("<p " ++ class_ "healthy" ++ ">All " ++ show_count (Status.total_monitored s)
            ++ " pipeline(s) healthy</p>")
     (statusDetails_innerHTML w') = true) /\
  (Status.is_healthy s = false <->
   statusDetails_innerHTML w'
   = nl ++ spaces 12 ++ "<p " ++ class_ "failed" ++ ">"
        ++ show_count (N.of_nat (length (Status.failed_pipelines s)))
        ++ " pipeline(s) failed</p>"
        ++ nl ++ spaces 12 ++ "<ul " ++ class_ "failed-list" ++ ">"
        ++ join "" (map failed_item (Status.failed_pipelines s)) ++ "</ul>"
        ++ nl ++ spaces 12 ++ "<p " ++ class_ "last-checked" ++ ">Last checked: "
        ++ Status.last_checked s ++ "</p>"
        ++ nl ++ spaces 8).
Proof.
  intros w'. subst w'.
  destruct (updateStatusDisplay_snapshot s w) as (_ & Hclass & Hdetails).
  rewrite Hclass, Hdetails. clear Hclass Hdetails.
  destruct (Status.is_healthy s); repeat split;
    try reflexivity; try discriminate; intros _.
  apply prefix_append.
Qed.



(* ================================================================== *)
(** ** Start-up: the current status and the saved credentials *)
(* ================================================================== *)

(** C5. If [get_pipeline_statuses] is rejected, or resolves to null or to
    undefined, loadCurrentStatus completes and leaves the status details and
    the status indicator as they were. *)
Theorem loadCurrentStatus_keeps_display (backend : Backend) (w : World) :
  (exists e, on_get_pipeline_statuses backend = Rejected e) \/
  on_get_pipeline_statuses backend = Resolved Status.Null \/
  on_get_pipeline_statuses backend = Resolved Status.Undefined ->
  let r := loadCurrentStatus backend w in
  fst r = Value tt /\
  statusDetails_innerHTML (snd r) = statusDetails_innerHTML w /\
  statusIndicator_className (snd r) = statusIndicator_className w.
Proof.
  intros H r. subst r.
  unfold loadCurrentStatus, try_catch, bind, invoke.
  destruct H as [[e ->] | [-> | ->]]; destruct w; simpl; repeat split.
Qed.

Lemma loadCurrentStatus_keeps_display_witness :
  on_get_pipeline_statuses Sample.down = Rejected "offline" /\
  statusDetails_innerHTML (snd (loadCurrentStatus Sample.down Sample.blank))
  = "<p>Loading...</p>" /\
  statusIndicator_className (snd (loadCurrentStatus Sample.down Sample.blank))
  = "status-gray".
Proof.
  split; [reflexivity |].
  exact (proj2 (loadCurrentStatus_keeps_display Sample.down Sample.blank
                  (or_introl (ex_intro _ "offline" eq_refl)))).
Defined.

(** loadWorkspaces does nothing at all while either credential is empty. *)
Lemma loadWorkspaces_without_credentials (backend : Backend) (w : World) :
  currentUsername w = "" \/ currentAppPassword w = "" ->
  loadWorkspaces backend w = (Value tt, w).
Proof.
  intros H. unfold loadWorkspaces, bind, read.
  destruct H as [-> | ->]; simpl; [reflexivity |].
  now rewrite orb_true_r.
Qed.

(** C6. Absent credentials are a silent no-op. When [get_credentials]
    resolves to null or to the empty string, loadSavedCredentials completes
    having done nothing but that one call. When it resolves to a user name and
    [get_app_password] resolves to null or to the empty string, the user
    name is filled in and nothing else happens. In both cases the
    authentication status, the notification and the console are as before,
    and [get_workspaces] is not invoked. And loadWorkspaces, whenever either
    credential is empty, returns without invoking anything. *)
Theorem absent_credentials_are_silent (backend : Backend) (w : World) :
  let r := loadSavedCredentials backend w in
  (forall u,
     on_get_credentials backend = Resolved u -> truthy_opt u = false ->
     r = (Value tt, upd_calls (fun l => app l [get_credentials]) w)) /\
  (forall u p,
     on_get_credentials backend = Resolved (Some u) -> truthy u = true ->
     on_get_app_password backend = Resolved p -> truthy_opt p = false ->
     r = (Value tt,
          upd_calls (fun l => app l [get_credentials; get_app_password])
            (upd_currentUsername (fun _ => u)
               (upd_usernameInput_value (fun _ => u) w)))) /\
  ((exists u, on_get_credentials backend = Resolved u /\ truthy_opt u = false) \/
   (exists u p, on_get_credentials backend = Resolved (Some u) /\ truthy u = true /\
                on_get_app_password backend = Resolved p /\ truthy_opt p = false) ->
   fst r = Value tt /\
   authStatus (snd r) = authStatus w /\
   notification (snd r) = notification w /\
   console (snd r) = console w /\
   workspaces (snd r) = workspaces w /\
   exists new, calls (snd r) = app (calls w) new /\
               forall a b, ~ In (get_workspaces a b) new) /\
  (currentUsername w = "" \/ currentAppPassword w = "" ->
   loadWorkspaces backend w = (Value tt, w)).
Proof.
  intros r.
  assert (Hnone : forall u,
     on_get_credentials backend = Resolved u -> truthy_opt u = false ->
     r = (Value tt, upd_calls (fun l => app l [get_credentials]) w)).
  { intros u Hu Hfalsy. subst r.
    unfold loadSavedCredentials, try_catch, bind, invoke. rewrite Hu.
    destruct u as [[|c u]|]; try discriminate; destruct w; reflexivity. }
  assert (Hhalf : forall u p,
     on_get_credentials backend = Resolved (Some u) -> truthy u = true ->
     on_get_app_password backend = Resolved p -> truthy_opt p = false ->
     r = (Value tt,
          upd_calls (fun l => app l [get_credentials; get_app_password])
            (upd_currentUsername (fun _ => u)
               (upd_usernameInput_value (fun _ => u) w)))).
  { intros u p Hu Htruthy Hp Hfalsy. subst r.
    unfold loadSavedCredentials, try_catch, bind, invoke. rewrite Hu.
    destruct u as [|c u]; try discriminate.
    destruct w; cbn. rewrite Hp.
    destruct p as [[|d p]|]; try discriminate; cbn;
      now rewrite <- app_assoc. }
  split; [exact Hnone |]. split; [exact Hhalf |]. split.
  - intros [(u & Hu & Hfalsy) | (u & p & Hu & Htruthy & Hp & Hfalsy)].
    + rewrite (Hnone u Hu Hfalsy). destruct w; cbn. repeat split.
      exists [get_credentials]. split; [reflexivity |].
      intros a b [H | []]; discriminate.
    + rewrite (Hhalf u p Hu Htruthy Hp Hfalsy). destruct w; cbn. repeat split.
      exists [get_credentials; get_app_password]. split; [reflexivity |].
      intros a b [H | [H | []]]; discriminate.
  - apply loadWorkspaces_without_credentials.
Qed.

Lemma absent_credentials_are_silent_witness :
  on_get_credentials Sample.fresh = Resolved None /\
  on_get_credentials Sample.half = Resolved (Some "dev@acme.io") /\
  on_get_app_password Sample.half = Resolved (Some "") /\
  calls (snd (loadSavedCredentials Sample.fresh Sample.blank)) = [get_credentials] /\
  calls (snd (loadSavedCredentials Sample.half Sample.blank))
  = [get_credentials; get_app_password] /\
  authStatus (snd (loadSavedCredentials Sample.half Sample.blank))
  = authStatus Sample.blank /\
  loadWorkspaces Sample.up Sample.blank = (Value tt, Sample.blank).
Proof.
  destruct (absent_credentials_are_silent Sample.fresh Sample.blank)
    as (Hnone & _ & _ & _).
  destruct (absent_credentials_are_silent Sample.half Sample.blank)
    as (_ & Hhalf & _ & _).
  destruct (absent_credentials_are_silent Sample.up Sample.blank)
    as (_ & _ & _ & Hup).
  specialize (Hnone None eq_refl eq_refl).
  specialize (Hhalf "dev@acme.io" (Some "") eq_refl eq_refl eq_refl eq_refl).
  specialize (Hup (or_introl eq_refl)).
  do 3 (split; [reflexivity |]).
  split; [now rewrite Hnone |].
  split; [now rewrite Hhalf |].
  split; [now rewrite Hhalf | exact Hup].
Defined.

(* ================================================================== *)
(** ** The list of monitored pipelines *)
(* ================================================================== *)






(** C9. Removing a pipeline is not undone when the save is rejected: the entry
    at the index is spliced out before the save; when the save is rejected an
    error is shown and nothing is restored. The list stays one entry shorter
    (for an index inside it), while the store and the rendered list are as
    before, so the list differs from a store that held the same entries. *)
Theorem remove_not_rolled_back (backend : Backend) (w : World) (index : nat)
    (e : string) :
  on_save_monitored_pipelines backend (splice1 index (monitoredPipelines w))
  = Rejected e ->
  let r := removePipeline backend index w in
  fst r = Value tt /\
  calls (snd r)
  = app (calls w) [save_monitored_pipelines (splice1 index (monitoredPipelines w))] /\
  monitoredPipelines (snd r) = splice1 index (monitoredPipelines w) /\
  pipelineList (snd r) = pipelineList w /\
  stored_pipelines (snd r) = stored_pipelines w /\
  notification (snd r)
  = Some {| n_className := "notification error";
            n_textContent := "Failed to remove: " ++ e |} /\
  (index < length (monitoredPipelines w) ->
   S (length (monitoredPipelines (snd r))) = length (monitoredPipelines w) /\
   (stored_pipelines w = monitoredPipelines w ->
    monitoredPipelines (snd r) <> stored_pipelines (snd r))).
Proof.
  intros Hsave r. subst r.
  unfold removePipeline, try_catch, bind, invoke_save_monitored_pipelines, bind,
    invoke, modify, read.
  destruct w; cbn in *. rewrite Hsave. cbn.
  do 6 (split; [reflexivity |]).
  intros Hindex. split; [now apply splice1_length |].
  intros -> Heq. apply (f_equal (@length Pipeline)) in Heq.
  pose proof (splice1_length index _ Hindex) as Hlen. lia.
Qed.

Lemma remove_not_rolled_back_witness :
  on_save_monitored_pipelines Sample.down [Sample.web] = Rejected "disk full" /\
  monitoredPipelines
    (snd (removePipeline Sample.down 0
            (Sample.monitoring [Sample.api; Sample.web] Sample.blank)))
  = [Sample.web] /\
  stored_pipelines
    (snd (removePipeline Sample.down 0
            (Sample.monitoring [Sample.api; Sample.web] Sample.blank)))
  = [Sample.api; Sample.web].
Proof.
  split; [reflexivity |].
  destruct (remove_not_rolled_back Sample.down
              (Sample.monitoring [Sample.api; Sample.web] Sample.blank) 0 "disk full"
              eq_refl) as (_ & _ & Hlist & _ & Hstore & _).
  split; [exact Hlist | exact Hstore].
Defined.





(* ================================================================== *)
(** ** The poll interval *)
(* ================================================================== *)


(** Whatever the input, the only command saveSettings can invoke is
    [set_polling_interval], and its argument is an integer of at least 30 or
    NaN. *)
Lemma saveSettings_invokes (backend : Backend) (w : World) :
  calls (run (saveSettings backend) w) = calls w \/
  exists x, calls (run (saveSettings backend) w) = app (calls w) [set_polling_interval x] /\
            x = parseInt (pollingIntervalInput_value w) /\
            (x = NaN \/ exists z, x = Int z /\ (30 <= z)%Z).
Proof.
  unfold run, saveSettings, bind, read, try_catch, invoke.
  destruct (parseInt (pollingIntervalInput_value w)) as [|z] eqn:Hparse; cbn [lt].
  - right. exists NaN. split; [| split; [reflexivity | now left]].
    destruct w; cbn. now destruct (on_set_polling_interval backend NaN).
  - destruct (z <? 30)%Z eqn:Hz.
    + left. now destruct w.
    + right. exists (Int z). apply Z.ltb_ge in Hz.
      split; [| split; [reflexivity | right; now exists z]].
      destruct w; cbn. now destruct (on_set_polling_interval backend (Int z)).
Qed.

(** C1, at an input the floor does not catch. With the interval field left
    empty [parseInt] returns NaN, which is not below 30: saveSettings shows
    no validation error and invokes [set_polling_interval] with NaN. *)
Theorem saveSettings_empty_interval (backend : Backend) :
  let w := upd_pollingIntervalInput_value (fun _ => "") Sample.blank in
  parseInt (pollingIntervalInput_value w) = NaN /\
  lt NaN 30 = false /\
  calls (run (saveSettings backend) w) = [set_polling_interval NaN] /\
  notification (run (saveSettings backend) w)
  <> Some {| n_className := "notification error";
             n_textContent := "Interval must be at least 30 seconds" |}.
Proof.
  cbv zeta. unfold run, saveSettings, bind, read, try_catch, invoke. cbn.
  destruct (on_set_polling_interval backend NaN); cbn; repeat split; discriminate.
Qed.

(* ================================================================== *)
(** ** Manual refresh and the serialization of ticks *)
(* ================================================================== *)

(** The refresh button has no guard of its own: every click invokes
    [trigger_refresh], however the backend settles it. *)
Lemma onRefreshClick_calls (backend : Backend) (w : World) :
  calls (run (onRefreshClick backend) w) = app (calls w) [trigger_refresh].
Proof.
  unfold run, onRefreshClick, bind, modify, invoke. destruct w; cbn.
  now destruct (on_trigger_refresh backend).
Qed.

Lemma clicks_call (backend : Backend) (n : nat) (w : World) :
  calls (Nat.iter n (run (onRefreshClick backend)) w)
  = app (calls w) (repeat trigger_refresh n).
Proof.
  induction n as [|n IH].
  - cbn. now rewrite app_nil_r.
  - rewrite Nat.iter_succ, onRefreshClick_calls, IH, <- app_assoc.
    f_equal. clear IH. induction n as [|n IH]; [reflexivity |].
    cbn [repeat app]. now rewrite IH.
Qed.

Lemma step_serialized (s : Scheduler.State) (e : Scheduler.Event) :
  Scheduler.in_flight s <= 1 -> Scheduler.in_flight (Scheduler.step s e) <= 1.
Proof.
  intros H. destruct e; unfold Scheduler.step.
  - destruct (Nat.eqb_spec (Scheduler.in_flight s) 0) as [Hz | _]; cbn; lia.
  - destruct (Nat.eqb_spec (Scheduler.in_flight s) 0) as [Hz | _]; cbn; lia.
  - cbn. lia.
Qed.

Lemma fold_step_serialized (events : list Scheduler.Event) (s : Scheduler.State) :
  Scheduler.in_flight s <= 1 ->
  Scheduler.in_flight (fold_left Scheduler.step events s) <= 1.
Proof.
  revert s. induction events as [|e events IH]; intros s H; cbn.
  - exact H.
  - apply IH. now apply step_serialized.
Qed.

(** C7. Ticks are serialized. The page sends one [trigger_refresh] for each
    click of the refresh button, and in the scheduler, whatever the sequence
    of manual triggers, timer ticks and tick completions and at whatever
    point of it, at most one tick is in flight. *)
Theorem ticks_serialized (backend : Backend) (w : World) (clicks : nat)
    (events : list Scheduler.Event) (k : nat) :
  Scheduler.manual_triggers
    (calls (Nat.iter clicks (run (onRefreshClick backend)) w))
  = app (Scheduler.manual_triggers (calls w)) (repeat Scheduler.ManualTrigger clicks) /\
  Scheduler.in_flight (Scheduler.run (firstn k events)) <= 1 /\
  Scheduler.in_flight
    (Scheduler.run (app (firstn k events) (repeat Scheduler.ManualTrigger clicks))) <= 1.
Proof.
  split; [| split].
  - rewrite clicks_call. unfold Scheduler.manual_triggers.
    rewrite flat_map_app. f_equal.
    induction clicks as [|n IH]; [reflexivity |]. cbn. now rewrite IH.
  - apply fold_step_serialized. cbn. lia.
  - apply fold_step_serialized. cbn. lia.
Qed.

(* ================================================================== *)
(** ** What renderPipelineList renders *)
(* ================================================================== *)

Example render_mixed :
  renderPipelineList_children
    [Sample.api; Fixture.docs; Sample.web; Fixture.y2024; Fixture.loose]
  = (Value tt,
     [ li_header "2024"; pipeline_item (Fixture.y2024, 3);
       li_header "Platform"; pipeline_item (Sample.api, 0); pipeline_item (Sample.web, 2);
       li_header "Docs"; pipeline_item (Fixture.docs, 1);
       li_header "acme"; pipeline_item (Fixture.loose, 4) ]).
Proof. reflexivity. Qed.

Lemma mem_In (k : string) (l : list string) :
  existsb (String.eqb k) l = true <-> In k l.
Proof.
  rewrite existsb_exists. split.
  - intros (x & Hx & E). apply String.eqb_eq in E. now subst.
  - intros H. exists k. split; [exact H | apply String.eqb_refl].
Qed.

Lemma mem_not_In (k : string) (l : list string) :
  existsb (String.eqb k) l = false <-> ~ In k l.
Proof.
  rewrite <- mem_In. now destruct (existsb _ l).
Qed.

Lemma first_seen_snoc (ks : list string) (k : string) :
  first_seen (app ks [k])
  = if existsb (String.eqb k) (first_seen ks) then first_seen ks
    else app (first_seen ks) [k].
Proof. unfold first_seen. now rewrite fold_left_app. Qed.

Lemma first_seen_In (ks : list string) (k : string) :
  In k (first_seen ks) <-> In k ks.
Proof.
  induction ks as [|x ks IH] using rev_ind; [reflexivity |].
  rewrite first_seen_snoc, in_app_iff.
  destruct (existsb (String.eqb x) (first_seen ks)) eqn:E.
  - apply mem_In in E. rewrite IH in *. cbn. intuition (subst; auto).
  - rewrite in_app_iff, IH. reflexivity.
Qed.

Lemma first_seen_NoDup (ks : list string) : NoDup (first_seen ks).
Proof.
  induction ks as [|x ks IH] using rev_ind; [constructor |].
  rewrite first_seen_snoc.
  destruct (existsb (String.eqb x) (first_seen ks)) eqn:E; [exact IH |].
  apply mem_not_In in E.
  apply NoDup_app; [exact IH | repeat constructor; easy |].
  intros a Ha [<- | []]. now apply E.
Qed.

Lemma under_snoc (k : string) (es : list Entry) (x : Entry) :
  under k (app es [x])
  = app (under k es) (if String.eqb (groupKey (fst x)) k then [x] else []).
Proof. unfold under. now rewrite filter_app. Qed.

Lemma under_nil_of_fresh (k : string) (es : list Entry) :
  ~ In k (map (fun e => groupKey (fst e)) es) -> under k es = [].
Proof.
  induction es as [|e es IH]; [reflexivity |]. cbn. intros H.
  destruct (String.eqb_spec (groupKey (fst e)) k) as [E | _].
  - elim H. now left.
  - apply IH. intros Hin. apply H. now right.
Qed.

Lemma push_to_map (F : string -> list Entry) (k : string) (x : Entry)
    (ks : list string) :
  NoDup ks ->
  push_to k x (map (fun k' => (k', F k')) ks)
  = if existsb (String.eqb k) ks
    then map (fun k' => (k', app (F k') (if String.eqb k k' then [x] else []))) ks
    else app (map (fun k' => (k', F k')) ks) [(k, [x])].
Proof.
  induction ks as [|k' ks IH]; [reflexivity |].
  intros Hnd. inversion Hnd as [|? ? Hnotin Hnd']; subst.
  cbn [map push_to existsb]. rewrite (String.eqb_sym k' k).
  destruct (String.eqb_spec k k') as [-> | Hne]; cbn [orb].
  - f_equal. apply map_ext_in. intros k'' Hin.
    destruct (String.eqb_spec k' k'') as [-> | _]; [now elim Hnotin |].
    now rewrite app_nil_r.
  - rewrite (IH Hnd'). rewrite app_nil_r.
    now destruct (existsb (String.eqb k) ks).
Qed.

(** Pushing an entry keeps the groups the ones said directly. *)
Lemma push_to_groups_of (es : list Entry) (x : Entry) :
  push_to (groupKey (fst x)) x (groups_of es) = groups_of (app es [x]).
Proof.
  unfold groups_of. rewrite push_to_map by apply first_seen_NoDup.
  rewrite map_app. cbn [map]. rewrite first_seen_snoc.
  destruct (existsb (String.eqb (groupKey (fst x))) _) eqn:E.
  - apply map_ext. intros k. now rewrite under_snoc.
  - apply mem_not_In in E. rewrite map_app. cbn [map]. f_equal.
    + apply map_ext_in. intros k Hk. rewrite under_snoc.
      destruct (String.eqb_spec (groupKey (fst x)) k) as [<- | _];
        [now elim E | now rewrite app_nil_r].
    + rewrite under_snoc, String.eqb_refl.
      rewrite under_nil_of_fresh; [reflexivity |].
      intros Hin. apply E. now apply first_seen_In.
Qed.

Lemma group_from_groups_of (l : list Pipeline) (index : nat) (done : list Entry) :
  (forall p, In p l -> inherited (groupKey p) = false) ->
  group_from index l (groups_of done)
  = Value (groups_of (app done (combine l (seq index (length l))))).
Proof.
  revert index done. induction l as [|p l IH]; intros index done Hl.
  - cbn. now rewrite app_nil_r.
  - cbn [group_from length seq combine]. rewrite (Hl p (or_introl eq_refl)).
    change (groupKey p) with (groupKey (fst (p, index))).
    rewrite push_to_groups_of, IH by (intros q Hq; apply Hl; now right).
    now rewrite <- app_assoc.
Qed.


Lemma entries_indices (l : list Pipeline) (index : nat) :
  map snd (combine l (seq index (length l))) = seq index (length l).
Proof.
  revert index. induction l as [|p l IH]; intros index; [reflexivity |].
  cbn. now rewrite IH.
Qed.

Lemma entries_nth (l : list Pipeline) (start : nat) (p : Pipeline) (i : nat) :
  In (p, i) (combine l (seq start (length l))) ->
  start <= i /\ nth_error l (i - start) = Some p.
Proof.
  revert start. induction l as [|q l IH]; intros start; [intros [] |].
  cbn [length seq combine]. intros [E | Hin].
  - injection E as -> ->. split; [lia |]. now rewrite Nat.sub_diag.
  - destruct (IH (S start) Hin) as [Hle Hnth]. split; [lia |].
    replace (i - start) with (S (i - S start)) by lia. exact Hnth.
Qed.

(** With no inherited key, the loop builds the groups said directly. *)
Lemma group_from_start (l : list Pipeline) :
  (forall p, In p l -> inherited (groupKey p) = false) ->
  group_from 0 l [] = Value (groups_of (entries l)).
Proof.
  intros Hl. exact (group_from_groups_of l 0 [] Hl).
Qed.


(** With an inherited key it throws, and leaves no child. *)
Lemma renderPipelineList_children_throws (l : list Pipeline) (p : Pipeline) :
  In p l -> inherited (groupKey p) = true ->
  renderPipelineList_children l
  = (Throw "TypeError: grouped[groupKey].push is not a function", []).
Proof.
  intros Hin Hp.
  assert (Hthrow : forall index grouped,
            group_from index l grouped
            = Throw "TypeError: grouped[groupKey].push is not a function").
  { induction l as [|q l IH]; [destruct Hin |]. intros index grouped.
    cbn [group_from]. destruct (inherited (groupKey q)) eqn:Hq; [reflexivity |].
    destruct Hin as [-> | Hin]; [congruence |]. now apply IH. }
  destruct l as [|q l]; [destruct Hin |].
  unfold renderPipelineList_children. now rewrite Hthrow.
Qed.

Lemma filter_split {A} (f : A -> bool) (l : list A) :
  Permutation (app (filter f l) (filter (fun x => negb (f x)) l)) l.
Proof.
  induction l as [|x l IH]; [constructor |]. cbn.
  destruct (f x); cbn.
  - now constructor.
  - symmetry. apply Permutation_cons_app. now symmetry.
Qed.

Lemma insert_index_perm {V} (n : N) (e : string * V) (s : list (N * (string * V))) :
  Permutation (insert_index n e s) ((n, e) :: s).
Proof.
  induction s as [|[m e'] s IH]; cbn; [reflexivity |].
  destruct (n <? m)%N; [reflexivity |].
  rewrite IH. apply perm_swap.
Qed.

Lemma sorted_perm {V} (l : list (N * (string * V))) :
  Permutation (fold_right (fun ne acc => insert_index (fst ne) (snd ne) acc) [] l) l.
Proof.
  induction l as [|[n e] l IH]; cbn; [constructor |].
  rewrite insert_index_perm. now constructor.
Qed.



Lemma index_properties_snd {V} (o : list (string * V)) :
  map snd (index_properties o) = filter (fun e => is_array_index (fst e)) o.
Proof.
  unfold index_properties, is_array_index.
  induction o as [|e o IH]; [reflexivity |]. cbn.
  destruct (array_index (fst e)); cbn; now rewrite IH.
Qed.


(** [Object.keys] lists every own property once. *)
Lemma in_key_order_perm {V} (o : list (string * V)) : Permutation (in_key_order o) o.
Proof.
  unfold in_key_order.
  rewrite (Permutation_map snd (sorted_perm (index_properties o))).
  rewrite index_properties_snd. apply filter_split.
Qed.



Lemma remove_buttons_of_groups (o : Grouped) :
  remove_buttons (flat_map group_children o)
  = flat_map (fun kv => map snd (snd kv)) o.
Proof.
  induction o as [|[k xs] o IH]; [reflexivity |].
  cbn [flat_map group_children fst snd]. unfold remove_buttons in *.
  rewrite flat_map_app, IH. cbn. f_equal.
  induction xs as [|[p i] xs IHxs]; [reflexivity |]. cbn. now rewrite IHxs.
Qed.

Lemma under_nil (ks : list string) :
  flat_map (fun k => under k []) ks = [].
Proof. induction ks as [|k ks IH]; [reflexivity | exact IH]. Qed.

Lemma under_cons_perm (e : Entry) (es : list Entry) (ks : list string) :
  NoDup ks -> In (groupKey (fst e)) ks ->
  Permutation (flat_map (fun k => under k (e :: es)) ks)
              (e :: flat_map (fun k => under k es) ks).
Proof.
  induction ks as [|k ks IH]; [intros _ [] |].
  intros Hnd Hin. inversion Hnd as [|? ? Hnotin Hnd']; subst.
  cbn [flat_map]. unfold under at 1. cbn [filter]. fold (under k es).
  destruct (String.eqb_spec (groupKey (fst e)) k) as [E | Hne].
  - cbn [app]. constructor. apply Permutation_app_head.
    assert (Hsame : forall k', In k' ks -> under k' (e :: es) = under k' es).
    { intros k' Hk'. unfold under. cbn.
      destruct (String.eqb_spec (groupKey (fst e)) k') as [E' | _]; [| reflexivity].
      subst. now elim Hnotin. }
    clear - Hsame. induction ks as [|k' ks IH]; [reflexivity |]. cbn [flat_map].
    rewrite (Hsame k' (or_introl eq_refl)). apply Permutation_app_head.
    apply IH. intros k'' Hk''. apply Hsame. now right.
  - destruct Hin as [-> | Hin]; [now elim Hne |].
    rewrite (IH Hnd' Hin). symmetry. apply Permutation_middle.
Qed.

(** The groups hold every entry once. *)
Lemma groups_of_perm (es : list Entry) :
  Permutation (flat_map snd (groups_of es)) es.
Proof.
  unfold groups_of. rewrite flat_map_concat_map, map_map. cbn [snd].
  rewrite <- flat_map_concat_map.
  assert (Hgen : forall ks, NoDup ks ->
            (forall e, In e es -> In (groupKey (fst e)) ks) ->
            Permutation (flat_map (fun k => under k es) ks) es).
  { induction es as [|e es IH]; intros ks Hnd Hcover.
    - now rewrite under_nil.
    - rewrite under_cons_perm; [| exact Hnd | apply Hcover; now left].
      constructor. apply IH; [exact Hnd |]. intros x Hx. apply Hcover. now right. }
  apply Hgen; [apply first_seen_NoDup |].
  intros e He. apply first_seen_In. now apply (in_map (fun e => groupKey (fst e))).
Qed.



(** The buttons of a rendered list, and the items they sit in. *)
Lemma rendered_buttons (l : list Pipeline) :
  (forall p, In p l -> inherited (groupKey p) = false) ->
  let children := snd (renderPipelineList_children l) in
  Permutation (remove_buttons children) (seq 0 (length l)) /\
  forall markup index,
    In (li_pipeline markup index) children ->
    exists p, nth_error l index = Some p /\
              li_pipeline markup index = pipeline_item (p, index).
Proof.
  intros Hl children. subst children.
  destruct l as [|q l]; [split; [reflexivity | intros m i [H | []]; discriminate] |].
  unfold renderPipelineList_children. rewrite (group_from_start _ Hl). cbn [snd].
  assert (Hidx : map snd (entries (q :: l)) = seq 0 (length (q :: l)))
    by apply entries_indices.
  assert (Hnth : forall p i, In (p, i) (entries (q :: l)) ->
                             nth_error (q :: l) i = Some p).
  { intros p i He. destruct (entries_nth _ 0 p i He) as [_ H].
    now rewrite Nat.sub_0_r in H. }
  revert Hidx Hnth. generalize (entries (q :: l)) as es. intros es Hidx Hnth. split.
  - rewrite remove_buttons_of_groups.
    rewrite (Permutation_flat_map _ (in_key_order_perm (groups_of es))).
    rewrite flat_map_concat_map, <- Hidx.
    rewrite <- (Permutation_map snd (groups_of_perm es)).
    rewrite (flat_map_concat_map snd), concat_map, map_map.
    reflexivity.
  - intros markup index Hin. apply in_flat_map in Hin.
    destruct Hin as ([k xs] & Hkv & Hc).
    apply (Permutation_in _ (in_key_order_perm (groups_of es))) in Hkv.
    unfold groups_of in Hkv. apply in_map_iff in Hkv.
    destruct Hkv as (k' & E & _). injection E as <- <-.
    destruct Hc as [Hc | Hc]; [discriminate |]. cbn [snd] in Hc.
    apply in_map_iff in Hc. destruct Hc as ([p i] & Hitem & He).
    apply filter_In in He. destruct He as [He _].
    assert (i = index) as -> by (cbn in Hitem; now injection Hitem).
    exists p. split; [now apply Hnth | now rewrite Hitem].
Qed.





(** X4. A pipeline whose group key is a name inherited from Object.prototype
    (a project that is named constructor, or toString) makes
    renderPipelineList throw, whatever else is in the list, and the list is
    left with no child at all. *)
Theorem renderPipelineList_inherited_key (l : list Pipeline) (p : Pipeline) :
  In p l -> inherited (groupKey p) = true ->
  exists e, renderPipelineList_children l = (Throw e, []).
Proof.
  intros Hin Hp. eexists. exact (renderPipelineList_children_throws l p Hin Hp).
Qed.

Lemma renderPipelineList_inherited_key_witness :
  inherited (groupKey Fixture.odd) = true /\
  snd (renderPipelineList_children [Sample.api; Fixture.odd; Sample.web]) = [] /\
  fst (renderPipelineList_children [Sample.api; Sample.web]) = Value tt.
Proof.
  split; [reflexivity |].
  destruct (renderPipelineList_inherited_key [Sample.api; Fixture.odd; Sample.web]
              Fixture.odd (or_intror (or_introl eq_refl)) eq_refl) as [e He].
  rewrite He. split; reflexivity.
Defined.
(* ================================================================== *)
(** ** More on the poll interval *)
(* ================================================================== *)

Lemma numeral_value_acc (d : Decimal.uint) (acc : positive) :
  Npos (Pos.of_uint_acc d acc) = numeral_value (Npos acc) d.
Proof.
  revert acc. induction d; intros acc; cbn [Pos.of_uint_acc numeral_value];
    [reflexivity | rewrite IHd; f_equal; lia ..].
Qed.

Lemma numeral_value_of_uint (d : Decimal.uint) : N.of_uint d = numeral_value 0 d.
Proof.
  unfold N.of_uint.
  induction d; cbn [Pos.of_uint numeral_value]; try reflexivity; try exact IHd;
    apply numeral_value_acc.
Qed.

Lemma digits_of_numeral (d : Decimal.uint) (a : N) (rest : string) :
  digits (Some (Z.of_N a)) (NilEmpty.string_of_uint d ++ rest)
  = digits (Some (Z.of_N (numeral_value a d))) rest.
Proof.
  revert a. induction d; intros a; [reflexivity | ..];
    cbn [NilEmpty.string_of_uint append digits numeral_value];
    (match goal with
     | |- context [digit_of ?c] =>
         change (digit_of c) with (Some (Z.of_nat (nat_of_ascii c) - 48)%Z)
     end);
    rewrite <- IHd; do 2 f_equal;
    (match goal with
     | |- context [Z.of_nat (nat_of_ascii ?c)] =>
         let v := eval vm_compute in (Z.of_nat (nat_of_ascii c)) in
         change (Z.of_nat (nat_of_ascii c)) with v
     end);
    lia.
Qed.

Lemma parseInt_numeral (d : Decimal.uint) (rest : string) :
  d <> Decimal.Nil ->
  parseInt (NilEmpty.string_of_uint d ++ rest)
  = match digits (Some 0%Z) (NilEmpty.string_of_uint d ++ rest) with
    | Some m => Int (1 * m)
    | None => NaN
    end.
Proof.
  intros Hd. destruct d; [now elim Hd | reflexivity ..].
Qed.

Lemma parseInt_shown (n : N) (rest : string) :
  (rest = "" \/ exists c r, rest = String c r /\ digit_of c = None) ->
  parseInt (show_count n ++ rest) = Int (Z.of_N n).
Proof.
  intros Hrest. unfold show_count.
  rewrite parseInt_numeral.
  - change 0%Z with (Z.of_N 0). rewrite digits_of_numeral.
    rewrite <- numeral_value_of_uint, DecimalN.Unsigned.of_to.
    destruct Hrest as [-> | (c & r & -> & Hc)]; cbn [digits]; [| rewrite Hc];
      f_equal; lia.
  - destruct n as [|p]; [discriminate |]. cbn.
    apply DecimalPos.Unsigned.to_uint_nonnil.
Qed.

(** What saveSettings does at or above the floor. *)
Lemma saveSettings_result (backend : Backend) (w : World) (z : Z) :
  parseInt (pollingIntervalInput_value w) = Int z -> (30 <= z)%Z ->
  saveSettings backend w
  = (Value tt,
     match on_set_polling_interval backend (Int z) with
     | Resolved _ =>
         notified "Settings saved!" "success"
           (upd_calls (fun c => app c [set_polling_interval (Int z)]) w)
     | Rejected e =>
         notified ("Failed to save settings: " ++ e) "error"
           (upd_calls (fun c => app c [set_polling_interval (Int z)]) w)
     end).
Proof.
  intros Hparse Hz.
  unfold saveSettings, bind, read, try_catch, invoke. rewrite Hparse.
  cbn [lt]. rewrite (proj2 (Z.ltb_ge z 30) Hz).
  destruct w; cbn. now destruct (on_set_polling_interval backend (Int z)).
Qed.

(** X5. Reading back what the page prints: [parseInt] of the decimal text of a
    count is that count, also when the text goes on with anything that does
    not start with a digit (a fraction, a unit). So an interval is cut at
    the first character that is not a digit, not rounded. *)
Theorem parseInt_of_shown_count (n : N) (rest : string) :
  (rest = "" \/ exists c r, rest = String c r /\ digit_of c = None) ->
  parseInt (show_count n ++ rest) = Int (Z.of_N n).
Proof. exact (parseInt_shown n rest). Qed.

Lemma parseInt_of_shown_count_witness :
  digit_of "."%char = None /\
  parseInt (show_count 45 ++ ".9") = Int 45 /\
  parseInt (show_count 120 ++ "") = Int 120.
Proof.
  split; [reflexivity |]. split.
  - apply (parseInt_of_shown_count 45 ".9"). right. now exists "."%char, "9".
  - apply (parseInt_of_shown_count 120 ""). now left.
Defined.

(** X6. At or above the floor: when the field parses to an integer of at least
    30, saveSettings invokes [set_polling_interval] with that integer and
    completes without throwing; it then shows [Settings saved!] when the
    backend accepts and the error of the backend when it rejects. *)
Theorem saveSettings_at_floor (backend : Backend) (w : World) (z : Z) :
  parseInt (pollingIntervalInput_value w) = Int z -> (30 <= z)%Z ->
  let r := saveSettings backend w in
  fst r = Value tt /\
  calls (snd r) = app (calls w) [set_polling_interval (Int z)] /\
  notification (snd r)
  = Some (match on_set_polling_interval backend (Int z) with
          | Resolved _ => {| n_className := "notification success";
                             n_textContent := "Settings saved!" |}
          | Rejected e => {| n_className := "notification error";
                             n_textContent := "Failed to save settings: " ++ e |}
          end) /\
  pollingIntervalInput_value (snd r) = pollingIntervalInput_value w.
Proof.
  intros Hparse Hz r. subst r. rewrite (saveSettings_result backend w z Hparse Hz).
  destruct (on_set_polling_interval backend (Int z)); destruct w; repeat split.
Qed.

Lemma saveSettings_at_floor_witness :
  parseInt (pollingIntervalInput_value Sample.blank) = Int 60 /\
  calls (snd (saveSettings Sample.down Sample.blank)) = [set_polling_interval (Int 60)] /\
  notification (snd (saveSettings Sample.down Sample.blank))
  = Some {| n_className := "notification error";
            n_textContent := "Failed to save settings: offline" |}.
Proof.
  split; [reflexivity |].
  destruct (saveSettings_at_floor Sample.down Sample.blank 60 eq_refl)
    as (_ & Hcalls & Hnote & _); [lia |].
  split; [exact Hcalls | exact Hnote].
Defined.

(* ================================================================== *)
(** ** More on the list of monitored pipelines *)
(* ================================================================== *)


Lemma splice1_nth_before {A} (i j : nat) (l : list A) :
  j < i -> nth_error (splice1 i l) j = nth_error l j.
Proof.
  revert i j. induction l as [|x l IH]; intros i j Hlt.
  - unfold splice1. rewrite firstn_nil, skipn_nil. reflexivity.
  - destruct i as [|i]; [lia |]. destruct j as [|j]; [reflexivity |].
    apply (IH i j). lia.
Qed.

Lemma splice1_nth_after {A} (i j : nat) (l : list A) :
  i <= j -> nth_error (splice1 i l) j = nth_error l (S j).
Proof.
  revert i j. induction l as [|x l IH]; intros i j Hle.
  - unfold splice1. rewrite firstn_nil, skipn_nil. now destruct j.
  - destruct i as [|i]; [reflexivity |]. destruct j as [|j]; [lia |].
    apply (IH i j). lia.
Qed.

Lemma splice1_twice {A} (i j : nat) (l : list A) :
  i <= j -> splice1 j (splice1 i l) = splice1 i (splice1 (S j) l).
Proof.
  revert i j. induction l as [|x l IH]; intros i j Hle.
  - unfold splice1. now rewrite !firstn_nil, !skipn_nil.
  - destruct i as [|i]; [reflexivity |]. destruct j as [|j]; [lia |].
    change (splice1 (S i) (x :: l)) with (x :: splice1 i l).
    change (splice1 (S (S j)) (x :: l)) with (x :: splice1 (S j) l).
    change (splice1 (S j) (x :: splice1 i l)) with (x :: splice1 j (splice1 i l)).
    change (splice1 (S i) (x :: splice1 (S j) l)) with (x :: splice1 i (splice1 (S j) l)).
    f_equal. apply IH. lia.
Qed.

(** What addMonitoredPipeline does when the selection is not complete: with a
    selected repository option it shows the request to select; with none,
    reading the text of the option throws before anything is done. *)
Lemma addMonitoredPipeline_incomplete (backend : Backend) (w : World) :
  complete w = false ->
  addMonitoredPipeline backend w
  = match selected (repoSelect w) with
    | Some _ =>
        (Value tt,
         notified "Please select workspace, project, and repository" "error" w)
    | None => (Throw "TypeError: Cannot read properties of undefined", w)
    end.
Proof.
  intros H. unfold addMonitoredPipeline, bind, read at 1.
  destruct (selected (repoSelect w)) as [o|] eqn:Ho; [| reflexivity].
  unfold ret at 1. unfold complete in H.
  destruct (truthy (select_value (workspaceSelect w))),
           (truthy (select_value (projectSelect w))),
           (truthy (select_value (repoSelect w))); try discriminate; reflexivity.
Qed.



(** X7. With a selection that is not complete, addMonitoredPipeline leaves
    the list and the store alone and invokes nothing: when a repository
    option is selected it asks to select workspace, project and repository;
    when none is, it throws before its own check, and the page is exactly
    as it was (no message is shown). *)
Theorem add_incomplete (backend : Backend) (w : World) :
  complete w = false ->
  let r := addMonitoredPipeline backend w in
  monitoredPipelines (snd r) = monitoredPipelines w /\
  stored_pipelines (snd r) = stored_pipelines w /\
  calls (snd r) = calls w /\
  (selected (repoSelect w) <> None ->
   fst r = Value tt /\
   notification (snd r)
   = Some {| n_className := "notification error";
             n_textContent := "Please select workspace, project, and repository" |}) /\
  (selected (repoSelect w) = None -> exists e, r = (Throw e, w)).
Proof.
  intros H r. subst r. rewrite (addMonitoredPipeline_incomplete backend w H).
  destruct (selected (repoSelect w)) as [o|].
  - do 3 (split; [now destruct w |]).
    split; [intros _; now destruct w | discriminate].
  - do 3 (split; [reflexivity |]).
    split; [intros E; now elim E | intros _; now eexists].
Qed.

Lemma add_incomplete_witness :
  complete Sample.blank = false /\
  selected (repoSelect Sample.blank) = None /\
  snd (addMonitoredPipeline Sample.up Sample.blank) = Sample.blank.
Proof.
  do 2 (split; [reflexivity |]).
  destruct (add_incomplete Sample.up Sample.blank eq_refl) as (_ & _ & _ & _ & H).
  destruct (H eq_refl) as [e He]. now rewrite He.
Defined.
(* ================================================================== *)
(** ** More on the status display, the refresh button and the credentials *)
(* ================================================================== *)

(** updateStatusDisplay writes the two properties of the status display, with
    values that depend on the payload alone, and completes. *)
Lemma updateStatusDisplay_writes (p : Status.Payload) :
  exists html cls, forall w,
    updateStatusDisplay p w
    = (Value tt,
       upd_statusIndicator_className (fun _ => cls)
         (upd_statusDetails_innerHTML (fun _ => html) w)).
Proof.
  exists (statusDetails_innerHTML (run (updateStatusDisplay p) Sample.blank)),
         (statusIndicator_className (run (updateStatusDisplay p) Sample.blank)).
  intros w.
  destruct p as [| |[healthy total running failed checked]];
    [| | destruct healthy]; destruct w; reflexivity.
Qed.

(** X8. The status display shows the last payload delivered and nothing of
    the ones before: updating with one payload and then with another leaves
    the page exactly as updating with the second alone; and an update changes
    the status details and the status indicator only. *)
Theorem updateStatusDisplay_overwrites (p1 p2 : Status.Payload) (w : World) :
  run (updateStatusDisplay p2) (run (updateStatusDisplay p1) w)
  = run (updateStatusDisplay p2) w /\
  exists html cls,
    run (updateStatusDisplay p1) w
    = upd_statusIndicator_className (fun _ => cls)
        (upd_statusDetails_innerHTML (fun _ => html) w).
Proof.
  destruct (updateStatusDisplay_writes p1) as (html1 & cls1 & H1).
  destruct (updateStatusDisplay_writes p2) as (html2 & cls2 & H2).
  unfold run. rewrite H1, !H2. cbn [snd]. split.
  - now destruct w.
  - now exists html1, cls1.
Qed.

(** X9. A click on the refresh button replaces the status details by the
    [Refreshing...] line and invokes [trigger_refresh]; the handler writes
    nothing more. When the backend rejects the call the rejection is not
    caught, and the [Refreshing...] line stays. *)
Theorem onRefreshClick_outcome (backend : Backend) (w : World) :
  let r := onRefreshClick backend w in
  fst r = match on_trigger_refresh backend with
          | Resolved _ => Value tt
          | Rejected e => Throw e
          end /\
  snd r = upd_calls (fun c => app c [trigger_refresh])
            (upd_statusDetails_innerHTML
               (fun _ => "<p " ++ class_ "loading" ++ ">Refreshing...</p>") w) /\
  statusDetails_innerHTML (snd r) = "<p " ++ class_ "loading" ++ ">Refreshing...</p>" /\
  statusIndicator_className (snd r) = statusIndicator_className w /\
  notification (snd r) = notification w /\
  console (snd r) = console w.
Proof.
  cbv zeta. unfold onRefreshClick, bind, modify, invoke.
  destruct w; cbn. destruct (on_trigger_refresh backend) as [[]|e]; repeat split.
Qed.

(** X10. With a user name and a password stored, loadSavedCredentials fills in
    the user name, keeps both in the variables, shows the bullets as the
    placeholder of the password field (the password itself is written to no
    element) and loads the workspaces with these credentials. If that call
    is rejected the credentials stay, the workspace list and drop-down are
    untouched, and the authentication status shows the failure in place of
    [Credentials saved]. *)
Theorem loadSavedCredentials_present (backend : Backend) (w : World) (u p : string) :
  on_get_credentials backend = Resolved (Some u) -> truthy u = true ->
  on_get_app_password backend = Resolved (Some p) -> truthy p = true ->
  let r := loadSavedCredentials backend w in
  fst r = Value tt /\
  currentUsername (snd r) = u /\
  currentAppPassword (snd r) = p /\
  usernameInput_value (snd r) = u /\
  appPasswordInput_placeholder (snd r) = bullets /\
  calls (snd r) = app (calls w) [get_credentials; get_app_password; get_workspaces u p] /\
  match on_get_workspaces backend u p with
  | Resolved ws =>
      workspaces (snd r) = ws /\
      authStatus (snd r)
      = {| textContent := "Credentials saved";
           className := "status-message success"; display := "block" |} /\
      workspaceSelect (snd r)
      = {| options :=
             {| value := ""; text := "Select Workspace" |}
             :: map (fun ws => {| value := slug ws; text := or_else (name ws) (slug ws) |})
                    ws;
           selectedIndex := Some 0;
           disabled := false |} /\
      console (snd r) = console w
  | Rejected e =>
      workspaces (snd r) = workspaces w /\
      authStatus (snd r)
      = {| textContent := "Failed to load workspaces: " ++ e;
           className := "status-message error"; display := "block" |} /\
      workspaceSelect (snd r) = workspaceSelect w /\
      console (snd r) = app (console w) ["Failed to load workspaces: " ++ e]
  end.
Proof.
  intros Hu Htu Hp Htp r. subst r.
  unfold loadSavedCredentials, try_catch, bind, invoke. rewrite Hu.
  destruct u as [|c u]; [discriminate |]. destruct p as [|d p]; [discriminate |].
  destruct w; cbn. rewrite Hp. cbn.
  unfold loadWorkspaces, try_catch, bind, invoke, read. cbn.
  destruct (on_get_workspaces backend (String c u) (String d p)) as [ws|e]; cbn;
    rewrite <- !app_assoc; repeat split.
Qed.

Lemma loadSavedCredentials_present_witness :
  on_get_credentials Sample.up = Resolved (Some "dev@acme.io") /\
  on_get_app_password Sample.up = Resolved (Some "s3cret") /\
  calls (snd (loadSavedCredentials Sample.up Sample.blank))
  = [get_credentials; get_app_password; get_workspaces "dev@acme.io" "s3cret"] /\
  currentAppPassword (snd (loadSavedCredentials Sample.up Sample.blank)) = "s3cret".
Proof.
  do 2 (split; [reflexivity |]).
  destruct (loadSavedCredentials_present Sample.up Sample.blank "dev@acme.io" "s3cret"
              eq_refl eq_refl eq_refl eq_refl) as (_ & _ & Hp & _ & _ & Hcalls & _).
  split; [exact Hcalls | exact Hp].
Defined.


(* ================================================================== *)
(** ** The list, its rendering and the store *)
(* ================================================================== *)


(** renderPipelineList with its children, for both ways it can end. *)
Lemma renderPipelineList_full_result (pg : Page) :
  renderPipelineList_full pg
  = match renderPipelineList_children (monitoredPipelines (world pg)) with
    | (Value _, children) =>
        (Value tt,
         on_world (upd_pipelineList (fun _ => monitoredPipelines (world pg)))
           (on_pipelineList_children (fun _ => children) pg))
    | (Throw e, children) =>
        (Throw e, on_pipelineList_children (fun _ => children) pg)
    end.
Proof.
  unfold renderPipelineList_full, pbind, pread, pmodify.
  destruct (renderPipelineList_children (monitoredPipelines (world pg)))
    as [[[]|e] children]; [| reflexivity].
  unfold lift, renderPipelineList, bind, read, modify.
  destruct pg as [w ? ? ? ? ? ? ?]; destruct w; reflexivity.
Qed.


(** removePipeline with the rendering in full, for every way it can go. *)
Lemma removePipeline_full_result (backend : Backend) (index : nat) (pg : Page) :
  let l' := splice1 index (monitoredPipelines (world pg)) in
  removePipeline_full backend index pg
  = match on_save_monitored_pipelines backend l' with
    | Rejected e =>
        (Value tt,
         on_world (fun w => notified ("Failed to remove: " ++ e) "error"
                              (sent_after (splice1 index) w)) pg)
    | Resolved _ =>
        match renderPipelineList_children l' with
        | (Value _, children) =>
            (Value tt,
             on_world (fun w => notified "Pipeline removed" "success"
                                  (upd_pipelineList (fun _ => l')
                                     (upd_stored_pipelines (fun _ => l')
                                        (sent_after (splice1 index) w))))
               (on_pipelineList_children (fun _ => children) pg))
        | (Throw e, children) =>
            (Value tt,
             on_world (fun w => notified ("Failed to remove: " ++ e) "error"
                                  (upd_stored_pipelines (fun _ => l')
                                     (sent_after (splice1 index) w)))
               (on_pipelineList_children (fun _ => children) pg))
        end
    end.
Proof.
  cbv zeta.
  unfold removePipeline_full, ptry_catch, pbind, pread.
  unfold lift at 1. unfold modify.
  unfold lift at 1. unfold invoke_save_monitored_pipelines, bind, invoke, modify.
  destruct pg as [w ? ? ? ? ? ? ?]; destruct w; cbn [world on_world].
  cbn [upd_monitoredPipelines monitoredPipelines upd_calls].
  destruct (on_save_monitored_pipelines backend _) as [[]|e]; [| reflexivity].
  rewrite renderPipelineList_full_result. cbn [world monitoredPipelines upd_stored_pipelines].
  destruct (renderPipelineList_children _) as [[[]|e] children]; reflexivity.
Qed.

(** addMonitoredPipeline with the rendering in full, when the selection is
    complete. *)
Lemma addMonitoredPipeline_full_complete (backend : Backend) (pg : Page) :
  complete (world pg) = true ->
  let w := world pg in
  let entry := chosen_pipeline w in
  let l' := push entry (monitoredPipelines w) in
  addMonitoredPipeline_full backend pg
  = if some (same_repo (select_value (workspaceSelect w))
                       (select_value (repoSelect w))) (monitoredPipelines w)
    then (Value tt,
          on_world (notified "This pipeline is already being monitored" "error") pg)
    else
      match on_save_monitored_pipelines backend l' with
      | Rejected e =>
          (Value tt,
           on_world (fun w => upd_monitoredPipelines pop
                                (notified ("Failed to save: " ++ e) "error"
                                   (sent_after (push entry) w))) pg)
      | Resolved _ =>
          match renderPipelineList_children l' with
          | (Value _, children) =>
              (Value tt,
               on_world (fun w => upd_addPipelineBtn_disabled (fun _ => true)
                                    (upd_repoSelect (set_select_value "")
                                       (notified "Pipeline added!" "success"
                                          (upd_pipelineList (fun _ => l')
                                             (upd_stored_pipelines (fun _ => l')
                                                (sent_after (push entry) w))))))
                 (on_pipelineList_children (fun _ => children) pg))
          | (Throw e, children) =>
              (Value tt,
               on_world (fun w => upd_monitoredPipelines pop
                                    (notified ("Failed to save: " ++ e) "error"
                                       (upd_stored_pipelines (fun _ => l')
                                          (sent_after (push entry) w))))
                 (on_pipelineList_children (fun _ => children) pg))
          end
      end.
Proof.
  intros H w entry l'. subst l' entry w.
  unfold complete in H. rewrite !andb_true_iff in H.
  destruct H as [[Hws Hproject] Hrepo].
  unfold chosen_pipeline.
  unfold addMonitoredPipeline_full, pbind, pread at 1.
  assert (Hsel : exists o, selected (repoSelect (world pg)) = Some o).
  { unfold select_value in Hrepo.
    destruct (selected (repoSelect (world pg))) as [o|]; [now exists o | discriminate]. }
  destruct Hsel as [o Ho]. rewrite Ho. unfold pret at 1.
  rewrite Hws, Hproject, Hrepo. cbn [negb orb].
  destruct (some _ (monitoredPipelines (world pg))).
  { unfold lift, showNotification, notified, run, modify.
    destruct pg as [w ? ? ? ? ? ? ?]; destruct w; reflexivity. }
  unfold ptry_catch, pbind, pread.
  unfold lift at 1. unfold modify.
  unfold lift at 1. unfold invoke_save_monitored_pipelines, bind, invoke, modify.
  destruct pg as [w ? ? ? ? ? ? ?]; destruct w; cbn [world on_world].
  cbn [upd_monitoredPipelines monitoredPipelines upd_calls].
  destruct (on_save_monitored_pipelines backend _) as [[]|e]; [| reflexivity].
  rewrite renderPipelineList_full_result. cbn [world monitoredPipelines upd_stored_pipelines].
  destruct (renderPipelineList_children _) as [[[]|e] children]; reflexivity.
Qed.







(** X12. After a removal that the backend rejected, the buttons are stale. The
    list was spliced at [i] but the children are still those of the list
    before: for [j] at or after [i], the item with the button [j] shows the
    old entry [j] while the list holds the old entry [j + 1] there, and a
    click on that button removes the old entry [j + 1], not the pipeline the
    item shows. *)
Theorem stale_buttons_after_rejected_remove (backend backend' : Backend) (pg : Page)
    (i j : nat) (e : string) :
  renderable (monitoredPipelines (world pg)) ->
  rendered pg ->
  on_save_monitored_pipelines backend (splice1 i (monitoredPipelines (world pg)))
  = Rejected e ->
  i <= j ->
  let l := monitoredPipelines (world pg) in
  let pg1 := prun (removePipeline_full backend i) pg in
  let pg2 := prun (removePipeline_full backend' j) pg1 in
  pipelineList_children pg1 = pipelineList_children pg /\
  (forall markup,
     In (li_pipeline markup j) (pipelineList_children pg1) ->
     exists p, nth_error l j = Some p /\ li_pipeline markup j = pipeline_item (p, j)) /\
  nth_error (monitoredPipelines (world pg1)) j = nth_error l (S j) /\
  monitoredPipelines (world pg2) = splice1 i (splice1 (S j) l).
Proof.
  intros Hl Hrendered Hsave Hle l pg1 pg2. subst pg2 pg1 l. unfold prun.
  rewrite (removePipeline_full_result backend i pg). cbv zeta. rewrite Hsave.
  cbn [snd]. set (pg1 := on_world _ pg).
  assert (Hlist : monitoredPipelines (world pg1)
                  = splice1 i (monitoredPipelines (world pg)))
    by (subst pg1; destruct pg as [w ? ? ? ? ? ? ?]; destruct w; reflexivity).
  assert (Hchildren : pipelineList_children pg1 = pipelineList_children pg)
    by (subst pg1; now destruct pg).
  split; [exact Hchildren |]. split; [| split].
  - rewrite Hchildren, Hrendered. intros markup Hin.
    exact (proj2 (rendered_buttons _ Hl) markup j Hin).
  - rewrite Hlist. now apply splice1_nth_after.
  - rewrite <- (splice1_twice i j) by exact Hle. rewrite <- Hlist.
    rewrite (removePipeline_full_result backend' j pg1). cbv zeta.
    destruct (on_save_monitored_pipelines backend' _) as [[]|e'].
    + destruct (renderPipelineList_children _) as [[[]|e'] children];
        destruct pg1 as [w ? ? ? ? ? ? ?]; destruct w; reflexivity.
    + destruct pg1 as [w ? ? ? ? ? ? ?]; destruct w; reflexivity.
Qed.

Lemma stale_buttons_after_rejected_remove_witness :
  renderable [Sample.api; Sample.web; Fixture.docs] /\
  In (pipeline_item (Sample.api, 0))
     (pipelineList_children
        (prun (removePipeline_full Sample.down 0)
              (Fixture.page (Sample.monitoring [Sample.api; Sample.web; Fixture.docs]
                                               Sample.blank)))) /\
  monitoredPipelines
    (world (prun (removePipeline_full Sample.up 0)
              (prun (removePipeline_full Sample.down 0)
                 (Fixture.page (Sample.monitoring [Sample.api; Sample.web; Fixture.docs]
                                                  Sample.blank)))))
  = [Fixture.docs].
Proof.
  assert (H : renderable [Sample.api; Sample.web; Fixture.docs])
    by (intros p [<- | [<- | [<- | []]]]; reflexivity).
  split; [exact H |].
  destruct (stale_buttons_after_rejected_remove Sample.down Sample.up
              (Fixture.page (Sample.monitoring [Sample.api; Sample.web; Fixture.docs]
                                               Sample.blank))
              0 0 "disk full" H eq_refl eq_refl (le_n 0))
    as (Hchildren & _ & _ & Hlist).
  split; [rewrite Hchildren; right; now left | exact Hlist].
Defined.







(** X16. An entry whose group key is inherited is saved but not kept. With a
    complete selection of a new repository whose project name is a name
    inherited from Object.prototype, and a backend that accepts the save,
    addMonitoredPipeline stores the list with the entry; renderPipelineList
    then throws, which the [catch] takes for a failed save: the error is
    shown, the entry is popped, and the list is left without children. The
    list is as before the click while the store holds the entry. *)
Theorem add_inherited_key (backend : Backend) (pg : Page) :
  let w := world pg in
  complete w = true ->
  some (same_repo (select_value (workspaceSelect w)) (select_value (repoSelect w)))
       (monitoredPipelines w) = false ->
  inherited (groupKey (chosen_pipeline w)) = true ->
  on_save_monitored_pipelines backend (app (monitoredPipelines w) [chosen_pipeline w])
  = Resolved tt ->
  let r := addMonitoredPipeline_full backend pg in
  fst r = Value tt /\
  stored_pipelines (world (snd r)) = app (monitoredPipelines w) [chosen_pipeline w] /\
  monitoredPipelines (world (snd r)) = monitoredPipelines w /\
  pipelineList_children (snd r) = [] /\
  repoSelect (world (snd r)) = repoSelect w /\
  exists e,
    notification (world (snd r))
    = Some {| n_className := "notification error";
              n_textContent := "Failed to save: " ++ e |}.
Proof.
  intros w Hcomplete Hnew Hkey Hsave r. subst r w.
  rewrite (addMonitoredPipeline_full_complete backend pg Hcomplete). cbv zeta.
  rewrite Hnew. unfold push. rewrite Hsave.
  rewrite (renderPipelineList_children_throws _ (chosen_pipeline (world pg)));
    [| apply in_or_app; right; now left | exact Hkey].
  destruct pg as [w ? ? ? ? ? ? ?]; destruct w; cbn.
  unfold pop. rewrite removelast_last. repeat split. now eexists.
Qed.

Lemma add_inherited_key_witness :
  chosen_pipeline Fixture.picked_odd = Fixture.odd /\
  inherited (groupKey Fixture.odd) = true /\
  stored_pipelines
    (world (snd (addMonitoredPipeline_full Sample.up
                   (Fixture.page (Sample.monitoring [Sample.api] Fixture.picked_odd)))))
  = [Sample.api; Fixture.odd] /\
  monitoredPipelines
    (world (snd (addMonitoredPipeline_full Sample.up
                   (Fixture.page (Sample.monitoring [Sample.api] Fixture.picked_odd)))))
  = [Sample.api].
Proof.
  do 2 (split; [reflexivity |]).
  destruct (add_inherited_key Sample.up
              (Fixture.page (Sample.monitoring [Sample.api] Fixture.picked_odd))
              eq_refl eq_refl eq_refl eq_refl) as (_ & Hstore & Hlist & _).
  split; [exact Hstore | exact Hlist].
Defined.



(* ================================================================== *)
(** ** Start-up *)
(* ================================================================== *)

Example trim_both : trim "  dev@acme.io " = "dev@acme.io".
Proof. reflexivity. Qed.

Example trim_blank : trim "   " = "".
Proof. reflexivity. Qed.

Example trim_inner : trim " a b " = "a b".
Proof. reflexivity. Qed.

Lemma loadWorkspaces_completes (backend : Backend) (w : World) :
  fst (loadWorkspaces backend w) = Value tt /\
  notification (snd (loadWorkspaces backend w)) = notification w.
Proof.
  unfold loadWorkspaces, bind, read, try_catch, invoke.
  destruct (negb (truthy (currentUsername w)) || negb (truthy (currentAppPassword w)));
    [now split |].
  destruct (on_get_workspaces backend _ _); destruct w; now split.
Qed.

Lemma loadSavedCredentials_completes (backend : Backend) (w : World) :
  fst (loadSavedCredentials backend w) = Value tt /\
  notification (snd (loadSavedCredentials backend w)) = notification w.
Proof.
  unfold loadSavedCredentials, try_catch, bind, invoke, when_truthy.
  destruct (on_get_credentials backend) as [[[|c u]|]|e];
    try (destruct w; now split).
  destruct w; cbn.
  destruct (on_get_app_password backend) as [[[|d p]|]|e]; try now split.
  cbn. unfold bind, try_catch. cbn.
  destruct (on_get_workspaces backend _ _); now split.
Qed.

Lemma loadCurrentStatus_completes (backend : Backend) (w : World) :
  fst (loadCurrentStatus backend w) = Value tt /\
  notification (snd (loadCurrentStatus backend w)) = notification w.
Proof.
  unfold loadCurrentStatus, try_catch, bind, invoke.
  destruct (on_get_pipeline_statuses backend) as [p|e]; [| destruct w; now split].
  destruct p as [| |s]; try (destruct w; now split).
  destruct (updateStatusDisplay_writes (Status.Snapshot s)) as (html & cls & H).
  cbn [Status.truthy]. rewrite H. destruct w; now split.
Qed.

(** loadMonitoredPipelines, for every way it can go. *)
Lemma loadMonitoredPipelines_result (services : Services) (pg : Page) :
  loadMonitoredPipelines services pg
  = (Value tt,
     on_commands (fun c => app c [get_monitored_pipelines])
       match on_get_monitored_pipelines services with
       | Resolved loaded =>
           match renderPipelineList_children loaded with
           | (Value _, children) =>
               on_world (fun w => upd_pipelineList (fun _ => loaded)
                                    (upd_monitoredPipelines (fun _ => loaded) w))
                 (on_pipelineList_children (fun _ => children) pg)
           | (Throw e, children) =>
               on_world (fun w =>
                           upd_console
                             (fun c => app c ["Failed to load monitored pipelines: " ++ e])
                             (upd_monitoredPipelines (fun _ => loaded) w))
                 (on_pipelineList_children (fun _ => children) pg)
           end
       | Rejected e =>
           on_world (upd_console
                       (fun c => app c ["Failed to load monitored pipelines: " ++ e])) pg
       end).
Proof.
  unfold loadMonitoredPipelines, ptry_catch, pbind, pinvoke.
  destruct (on_get_monitored_pipelines services) as [loaded|e].
  - unfold lift at 1. unfold modify. rewrite renderPipelineList_full_result.
    destruct pg as [w ? ? ? ? ? ? ?]; destruct w; cbn.
    destruct (renderPipelineList_children loaded) as [[[]|e] children]; reflexivity.
  - destruct pg as [w ? ? ? ? ? ? ?]; destruct w; reflexivity.
Qed.

(** What loadMonitoredPipelines leaves alone. *)
Lemma loadMonitoredPipelines_frame (services : Services) (pg : Page) :
  fst (loadMonitoredPipelines services pg) = Value tt /\
  notification (world (snd (loadMonitoredPipelines services pg)))
  = notification (world pg) /\
  saveAuthBtn (snd (loadMonitoredPipelines services pg)) = saveAuthBtn pg.
Proof.
  rewrite loadMonitoredPipelines_result.
  destruct (on_get_monitored_pipelines services) as [loaded|e].
  - destruct (renderPipelineList_children loaded) as [[[]|e] children];
      destruct pg as [w ? ? ? ? ? ? ?]; destruct w; repeat split.
  - destruct pg as [w ? ? ? ? ? ? ?]; destruct w; repeat split.
Qed.

Lemma loadPollingInterval_frame (services : Services) (pg : Page) :
  fst (loadPollingInterval services pg) = Value tt /\
  notification (world (snd (loadPollingInterval services pg)))
  = notification (world pg) /\
  saveAuthBtn (snd (loadPollingInterval services pg)) = saveAuthBtn pg.
Proof.
  unfold loadPollingInterval, ptry_catch, pbind, pinvoke, lift.
  destruct (on_get_polling_interval services); destruct pg as [w ? ? ? ? ? ? ?];
    destruct w; repeat split.
Qed.


(** X18. Start-up never throws and never shows a notification: each of the
    four loaders catches what its commands reject, so the handler of
    DOMContentLoaded completes for every behaviour of the backend, and goes on
    to register the listeners. *)
Theorem init_completes (backend : Backend) (services : Services) (pg : Page) :
  fst (init backend services pg) = Value tt /\
  notification (world (snd (init backend services pg))) = notification (world pg) /\
  saveAuthBtn (snd (init backend services pg)) = saveAuthBtn pg.
Proof.
  assert (H : exists done,
             init backend services pg = (Value tt, done) /\
             notification (world done) = notification (world pg) /\
             saveAuthBtn done = saveAuthBtn pg).
  { unfold init, pbind.
    destruct (loadSavedCredentials_completes backend (world pg)) as [H1 N1].
    unfold lift at 1.
    destruct (loadSavedCredentials backend (world pg)) as [o1 w1]. cbn in H1, N1.
    subst o1. set (pg1 := on_world _ pg).
    assert (B1 : saveAuthBtn pg1 = saveAuthBtn pg) by (subst pg1; now destruct pg).
    assert (W1 : notification (world pg1) = notification (world pg))
      by (subst pg1; destruct pg; exact N1).
    destruct (loadMonitoredPipelines_frame services pg1) as (H2 & N2 & B2).
    destruct (loadMonitoredPipelines services pg1) as [o2 pg2]. cbn in H2, N2, B2.
    subst o2.
    destruct (loadPollingInterval_frame services pg2) as (H3 & N3 & B3).
    destruct (loadPollingInterval services pg2) as [o3 pg3]. cbn in H3, N3, B3.
    subst o3. unfold lift.
    destruct (loadCurrentStatus_completes backend (world pg3)) as [H4 N4].
    destruct (loadCurrentStatus backend (world pg3)) as [o4 w4]. cbn in H4, N4.
    subst o4. eexists. split; [reflexivity |]. split.
    - assert (E : world (on_world (fun _ => w4) pg3) = w4) by now destruct pg3.
      now rewrite E, N4, N3, N2.
    - assert (E : saveAuthBtn (on_world (fun _ => w4) pg3) = saveAuthBtn pg3)
        by now destruct pg3.
      now rewrite E, B3, B2. }
  destruct H as (done & -> & N & B). now repeat split.
Qed.

(** X19. Start-up against a backend that rejects everything: the page stays
    as it was loaded. Nothing is shown to the user; the four failures go to
    the console, in the order of the loaders. *)
Theorem init_offline (backend : Backend) (services : Services) (pg : Page)
    (e1 e2 e3 e4 : string) :
  on_get_credentials backend = Rejected e1 ->
  on_get_monitored_pipelines services = Rejected e2 ->
  on_get_polling_interval services = Rejected e3 ->
  on_get_pipeline_statuses backend = Rejected e4 ->
  prun (init backend services) pg
  = on_commands (fun c => app c [get_monitored_pipelines; get_polling_interval])
      (on_world
         (fun w =>
            upd_calls (fun c => app c [get_credentials; get_pipeline_statuses])
              (upd_console
                 (fun c => app c [ "Failed to load credentials: " ++ e1;
                                   "Failed to load monitored pipelines: " ++ e2;
                                   "Failed to load polling interval: " ++ e3;
                                   "Failed to load status: " ++ e4 ]) w)) pg).
Proof.
  intros H1 H2 H3 H4.
  unfold prun, init, pbind. unfold lift at 1.
  unfold loadSavedCredentials, try_catch, bind, invoke. rewrite H1.
  unfold console_error, modify. cbv beta iota.
  rewrite loadMonitoredPipelines_result, H2. cbv beta iota.
  unfold lift, loadPollingInterval, loadCurrentStatus,
    ptry_catch, pbind, pinvoke, lift, try_catch, bind, invoke, console_error, modify.
  rewrite H3. destruct pg as [w ? ? ? ? ? ? ?]; destruct w; cbn.
  rewrite H4. unfold on_world, on_commands. cbn. now rewrite <- !app_assoc.
Qed.

Lemma init_offline_witness :
  on_get_credentials Sample.down = Rejected "offline" /\
  console (world (prun (init Sample.down Fixture.failing) (Fixture.page Sample.blank)))
  = [ "Failed to load credentials: offline";
      "Failed to load monitored pipelines: offline";
      "Failed to load polling interval: offline";
      "Failed to load status: offline" ] /\
  statusDetails_innerHTML
    (world (prun (init Sample.down Fixture.failing) (Fixture.page Sample.blank)))
  = "<p>Loading...</p>".
Proof.
  split; [reflexivity |].
  rewrite (init_offline Sample.down Fixture.failing (Fixture.page Sample.blank)
             "offline" "offline" "offline" "offline" eq_refl eq_refl eq_refl eq_refl).
  split; reflexivity.
Defined.




(* ================================================================== *)
(** ** The credentials form *)
(* ================================================================== *)

(** X22. saveCredentials with a user name or a password that is empty once
    trimmed: the form asks for both, and that is all. Nothing is invoked,
    the button is not touched, and the credentials in use stay. *)
Theorem saveCredentials_blank (backend : Backend) (services : Services) (pg : Page) :
  trim (usernameInput_value (world pg)) = "" \/ trim (appPasswordInput_value pg) = "" ->
  saveCredentials backend services pg
  = (Value tt,
     on_world (upd_authStatus (fun _ =>
                 {| textContent := "Please enter both username and app password";
                    className := "status-message error";
                    display := "block" |})) pg).
Proof.
  intros H. unfold saveCredentials, pbind, pread.
  assert (Hblank : negb (truthy (trim (usernameInput_value (world pg))))
                   || negb (truthy (trim (appPasswordInput_value pg))) = true).
  { destruct H as [-> | ->]; cbn; [reflexivity | apply orb_true_r]. }
  rewrite Hblank. unfold lift, showAuthStatus, modify.
  destruct pg as [w ? ? ? ? ? ? ?]; destruct w; reflexivity.
Qed.

Lemma saveCredentials_blank_witness :
  trim (appPasswordInput_value (Fixture.page Sample.blank)) = "" /\
  commands (snd (saveCredentials Sample.up Fixture.serving (Fixture.page Sample.blank)))
  = [] /\
  textContent
    (authStatus
       (world (snd (saveCredentials Sample.up Fixture.serving
                      (Fixture.page Sample.blank)))))
  = "Please enter both username and app password".
Proof.
  split; [reflexivity |].
  rewrite (saveCredentials_blank Sample.up Fixture.serving (Fixture.page Sample.blank)
             (or_intror eq_refl)).
  split; reflexivity.
Defined.



(* ================================================================== *)
(** ** The drop-downs *)
(* ================================================================== *)

(** X24. loadProjects. Without credentials it does nothing at all. With
    them it never throws; the repository drop-down is reset and disabled; and
    the project drop-down ends up enabled, with the placeholder selected and
    one option for each project loaded, in their order (showing the name, or
    the key when there is none), or, when the backend rejects the call,
    disabled with the single option [Error loading projects], the projects
    held before being kept. *)
Theorem loadProjects_outcome (services : Services) (ws : string) (pg : Page) :
  let u := currentUsername (world pg) in
  let p := currentAppPassword (world pg) in
  let r := loadProjects services ws pg in
  (truthy u = false \/ truthy p = false -> r = (Value tt, pg)) /\
  (truthy u = true -> truthy p = true ->
   fst r = Value tt /\
   commands (snd r) = app (commands pg) [get_projects u p ws] /\
   repoSelect (world (snd r))
   = {| options := [ {| value := ""; text := "Select Repository" |} ];
        selectedIndex := Some 0; disabled := true |} /\
   match on_get_projects services u p ws with
   | Resolved loaded =>
       projects (snd r) = loaded /\
       projectSelect (world (snd r))
       = {| options :=
              {| value := ""; text := "Select Project" |}
              :: map (fun proj =>
                        {| value := Project.key proj;
                           text := or_else (Project.name proj) (Project.key proj) |})
                     loaded;
            selectedIndex := Some 0; disabled := false |} /\
       console (world (snd r)) = console (world pg)
   | Rejected e =>
       projects (snd r) = projects pg /\
       projectSelect (world (snd r))
       = {| options := [ {| value := ""; text := "Error loading projects" |} ];
            selectedIndex := Some 0; disabled := true |} /\
       console (world (snd r))
       = app (console (world pg)) ["Failed to load projects: " ++ e]
   end).
Proof.
  cbv zeta. unfold loadProjects, pbind, pread. split.
  - intros [-> | ->]; cbn; [reflexivity | now rewrite orb_true_r].
  - intros -> ->. cbn [negb orb].
    unfold ptry_catch, pbind, pinvoke, pmodify, lift, populateProjectSelect, pbind,
      pread, lift.
    destruct pg as [w ? ? ? ? ? ? ?]; destruct w; cbn.
    destruct (on_get_projects services _ _ ws); cbn; repeat split.
Qed.

Lemma loadProjects_outcome_witness :
  truthy (currentUsername (world Fixture.signed_in)) = true /\
  truthy (currentAppPassword (world Fixture.signed_in)) = true /\
  options (projectSelect (world (snd (loadProjects Fixture.failing "acme"
                                        Fixture.signed_in))))
  = [ {| value := ""; text := "Error loading projects" |} ] /\
  loadProjects Fixture.serving "acme" (Fixture.page Sample.blank)
  = (Value tt, Fixture.page Sample.blank).
Proof.
  do 2 (split; [reflexivity |]).
  destruct (loadProjects_outcome Fixture.failing "acme" Fixture.signed_in)
    as [_ Hwith].
  destruct (Hwith eq_refl eq_refl) as (_ & _ & _ & _ & Hselect & _).
  destruct (loadProjects_outcome Fixture.serving "acme" (Fixture.page Sample.blank))
    as [Hwithout _].
  split; [now rewrite Hselect | apply Hwithout; now left].
Defined.

(** X25. A change of workspace clears what depends on it. With credentials
    loaded (or with the empty option chosen), after the listener has run the
    project and the repository drop-downs have the empty value selected,
    whatever the backend answered, and the repository drop-down is disabled:
    the selection is not complete, so addMonitoredPipeline cannot add a
    repository that was chosen under the workspace before. *)
Theorem workspace_change_clears_selection (backend : Backend) (services : Services)
    (pg : Page) :
  (truthy (currentUsername (world pg)) = true /\
   truthy (currentAppPassword (world pg)) = true) \/
  select_value (workspaceSelect (world pg)) = "" ->
  let pg1 := prun (onWorkspaceChange services) pg in
  currentWorkspace pg1 = select_value (workspaceSelect (world pg)) /\
  select_value (projectSelect (world pg1)) = "" /\
  select_value (repoSelect (world pg1)) = "" /\
  disabled (repoSelect (world pg1)) = true /\
  complete (world pg1) = false /\
  monitoredPipelines (run (addMonitoredPipeline backend) (world pg1))
  = monitoredPipelines (world pg) /\
  calls (run (addMonitoredPipeline backend) (world pg1)) = calls (world pg).
Proof.
  intros H pg1.
  assert (Hmain : currentWorkspace pg1 = select_value (workspaceSelect (world pg)) /\
                  select_value (projectSelect (world pg1)) = "" /\
                  select_value (repoSelect (world pg1)) = "" /\
                  disabled (repoSelect (world pg1)) = true /\
                  monitoredPipelines (world pg1) = monitoredPipelines (world pg) /\
                  calls (world pg1) = calls (world pg)).
  { subst pg1. unfold prun, onWorkspaceChange, pbind, pread, pmodify.
    destruct (truthy (select_value (workspaceSelect (world pg)))) eqn:Hws.
    - destruct H as [[Hu Hp] | Hempty]; [| rewrite Hempty in Hws; discriminate].
      unfold loadProjects, pbind, pread.
      cbn [world on_currentWorkspace]. rewrite Hu, Hp. cbn [negb orb].
      unfold ptry_catch, pbind, pinvoke, pmodify, lift, populateProjectSelect, pbind,
        pread, lift.
      destruct pg as [w ? ? ? ? ? ? ?]; destruct w; cbn.
      destruct (on_get_projects services _ _ _); cbn; repeat split.
    - unfold lift. destruct pg as [w ? ? ? ? ? ? ?]; destruct w; cbn. repeat split. }
  destruct Hmain as (Hcw & Hproject & Hrepo & Hdis & Hlist & Hcalls).
  assert (Hinc : complete (world pg1) = false)
    by (unfold complete; rewrite Hrepo; cbn; apply andb_false_r).
  do 5 (split; [assumption |]).
  unfold run. rewrite (addMonitoredPipeline_incomplete backend _ Hinc).
  rewrite <- Hlist, <- Hcalls.
  destruct (selected (repoSelect (world pg1))); destruct (world pg1); split; reflexivity.
Qed.

Lemma workspace_change_clears_selection_witness :
  truthy (currentUsername (world Fixture.signed_in)) = true /\
  complete (world Fixture.signed_in) = true /\
  complete (world (prun (onWorkspaceChange Fixture.serving) Fixture.signed_in)) = false.
Proof.
  do 2 (split; [reflexivity |]).
  destruct (workspace_change_clears_selection Sample.up Fixture.serving
              Fixture.signed_in (or_introl (conj eq_refl eq_refl)))
    as (_ & _ & _ & _ & Hinc & _).
  exact Hinc.
Defined.

(** X26. A change of project clears the repository. With credentials loaded
    (or with no project or no workspace chosen), after the listener has run
    the repository drop-down has the empty value selected, whatever the
    backend answered, so the selection is not complete; the workspace and the
    project chosen stay. The add button is not touched when repositories are
    loaded: it is disabled only when no project or no workspace is chosen. *)
Theorem project_change_clears_repository (services : Services) (pg : Page) :
  (truthy (currentUsername (world pg)) = true /\
   truthy (currentAppPassword (world pg)) = true) \/
  select_value (projectSelect (world pg)) = "" \/ currentWorkspace pg = "" ->
  let pg1 := prun (onProjectChange services) pg in
  select_value (repoSelect (world pg1)) = "" /\
  complete (world pg1) = false /\
  workspaceSelect (world pg1) = workspaceSelect (world pg) /\
  projectSelect (world pg1) = projectSelect (world pg) /\
  addPipelineBtn_disabled (world pg1)
  = (if truthy (select_value (projectSelect (world pg))) && truthy (currentWorkspace pg)
     then addPipelineBtn_disabled (world pg) else true).
Proof.
  intros H pg1.
  assert (Hmain : select_value (repoSelect (world pg1)) = "" /\
                  workspaceSelect (world pg1) = workspaceSelect (world pg) /\
                  projectSelect (world pg1) = projectSelect (world pg) /\
                  addPipelineBtn_disabled (world pg1)
                  = (if truthy (select_value (projectSelect (world pg)))
                        && truthy (currentWorkspace pg)
                     then addPipelineBtn_disabled (world pg) else true)).
  { subst pg1. unfold prun, onProjectChange, pbind, pread.
    destruct (truthy (select_value (projectSelect (world pg)))
              && truthy (currentWorkspace pg)) eqn:Hboth.
    - destruct H as [[Hu Hp] | [Hempty | Hempty]];
        [| rewrite Hempty in Hboth; discriminate
         | rewrite Hempty, andb_false_r in Hboth; discriminate].
      unfold loadRepositoriesByProject, pbind, pread. rewrite Hu, Hp. cbn [negb orb].
      unfold ptry_catch, pbind, pinvoke, pmodify, lift, populateRepoSelect, pbind,
        pread, lift.
      destruct pg as [w ? ? ? ? ? ? ?]; destruct w; cbn.
      destruct (on_get_repositories_by_project services _ _ _ _); cbn; repeat split.
    - unfold lift. destruct pg as [w ? ? ? ? ? ? ?]; destruct w; cbn. repeat split. }
  destruct Hmain as (Hrepo & Hws & Hproject & Hbtn).
  split; [exact Hrepo |]. split; [| now repeat split].
  unfold complete. rewrite Hrepo. cbn. apply andb_false_r.
Qed.

Lemma project_change_clears_repository_witness :
  truthy (currentUsername (world Fixture.signed_in)) = true /\
  select_value (repoSelect (world Fixture.signed_in)) = "api" /\
  select_value
    (repoSelect (world (prun (onProjectChange Fixture.serving)
                             (on_currentWorkspace (fun _ => "acme") Fixture.signed_in))))
  = "".
Proof.
  do 2 (split; [reflexivity |]).
  exact (proj1 (project_change_clears_repository Fixture.serving
                  (on_currentWorkspace (fun _ => "acme") Fixture.signed_in)
                  (or_introl (conj eq_refl eq_refl)))).
Defined.
